(** * Strength Routine Tracker: the [App] component of [src/App.tsx]

    A shallow embedding of the state, the event handlers and the two list
    helpers of the single React component of the repository, and the
    properties its specification states about them.

    Conventions of the embedding.
    - A JavaScript string is the sequence of its code units; the [string]
      type used here holds code units below 256 (the Latin-1 range).
    - A JavaScript [number] is kept abstract, together with the two built-in
      parsers that produce it ([Builtins]): every statement below holds for
      whatever [parseInt] and [parseFloat] return.
    - The hosted record store ([blink.db.exercises]) is outside the
      repository; it is an interface ([RecordStore]) whose calls settle
      either way.
    - A handler is a computation over the component state and its
      surroundings ([Task]); what it does to the outside (calls, toasts,
      console lines) is appended to a journal in the order it happens.
    - An event is handled to its end, the calls it awaits settled, before
      the next one: the page has one event loop, and what a second event
      would do while a call is pending is not part of the model. *)

From Stdlib Require Import Ascii String.
From stdpp Require Import base decidable option list strings sorting pretty.

Local Open Scope string_scope.
Local Open Scope list_scope.

(** ** JavaScript primitives used by the component *)

Module Js.

(** [c] as the code unit it denotes. *)
Definition code (c : ascii) : nat := nat_of_ascii c.

(** Code units with a lower-case mapping in the Latin-1 range: [A]-[Z]
    and [U+00C0]-[U+00DE] without the multiplication sign [U+00D7]. *)
Definition is_upper (c : ascii) : bool :=
  let n := code c in
  (((65 <=? n) && (n <=? 90)) ||
   ((192 <=? n) && (n <=? 222) && negb (n =? 215)))%nat.

Definition lower_unit (c : ascii) : ascii :=
  if is_upper c then ascii_of_nat (code c + 32)%nat else c.

(** [String.prototype.toLowerCase] *)
Fixpoint toLowerCase (s : string) : string :=
  match s with
  | EmptyString => EmptyString
  | String c rest => String (lower_unit c) (toLowerCase rest)
  end.

(** [!s] for a string [s]: only the empty string is falsy. *)
Definition not (s : string) : bool :=
  match s with
  | EmptyString => true
  | String _ _ => false
  end.

(** Truthiness of a string, as in [s ? a : b]. *)
Definition truthy (s : string) : bool := negb (not s).

(** What a promise settles to, and what a [try] block ends with. *)
Inductive Error :=
  | TypeError
  | Rejection (reason : string).

Inductive Settled (A : Type) :=
  | Fulfilled (a : A)
  | Rejected (e : Error).
Global Arguments Fulfilled {A} a.
Global Arguments Rejected {A} e.

End Js.

Import Js.

(** [number], [parseInt] and [parseFloat] of the host. *)
Class Builtins := {
  number : Type;
  parseInt : string → number;
  parseFloat : string → number;
}.

(** ** Data model (lines 14-41) *)

Inductive Category := upper | lower.

Global Instance Category_eq_dec : EqDecision Category.
Proof. solve_decision. Defined.

(** [uid] is the [id] of the source's [User]; the plain name is taken by
    the [id] of [Exercise]. *)
Record User := { uid : string; email : string }.

(** The form draft of [useState({exercise_name: '', ...})]. *)
Module Draft.
Record t := {
  exercise_name : string;
  reps : string;
  sets : string;
  total_weight : string;
}.
Definition empty : t :=
  {| exercise_name := ""; reps := ""; sets := ""; total_weight := "" |}.
End Draft.

Inductive Variant := destructive.

Record Toast := {
  title : string;
  description : string;
  variant : option Variant;
}.

Inductive Direction := asc | desc.

Record Query := {
  where_user_id : string;
  orderBy_created_at : Direction;
}.

Record Exercise `{Builtins} := {
  id : string;
  user_id : string;
  exercise_name : string;
  category : Category;
  reps : number;
  sets : number;
  total_weight : number;
  created_at : string;
}.

(** The argument of [create]: a record that has no [id] yet. *)
Module Payload.
Record t `{Builtins} := {
  user_id : string;
  exercise_name : string;
  category : Category;
  reps : number;
  sets : number;
  total_weight : number;
  created_at : string;
}.
End Payload.

(** The six [useState] cells of [App]. *)
Record AppState `{Builtins} := {
  user : option User;
  loading : bool;
  exercises : list Exercise;
  activeTab : Category;
  showAddForm : bool;
  formData : Draft.t;
}.

(** ** The record store (external)

    [list] and [create] of [blink.db.exercises]. A call moves the store to
    a next state and settles: fulfilled with a value or rejected. What
    [create] resolves to is dropped by the caller, hence [unit]. *)
Class RecordStore `{Builtins} := {
  store : Type;
  db_list : Query → store → store * Settled (list Exercise);
  db_create : Payload.t → store → store * Settled unit;
}.

(** ** Observable effects *)

Inductive Event `{Builtins} :=
  | PreventDefault
  | ListCall (q : Query) (r : Settled (list Exercise))
  | CreateCall (p : Payload.t) (r : Settled unit)
  | ToastShown (t : Toast)
  | ConsoleError (msg : string) (e : Error)
  | LoginCall.

(** The component state and its surroundings: the store, the wall clock as
    [new Date().toISOString()] reads it, and the journal. *)
Record Machine `{RecordStore} := {
  app : AppState;
  db : store;
  clock : string;
  journal : list Event;
}.

(** ** Computations

    A [Task] runs on a machine and either completes with a value or ends
    with a thrown error (a rejected [await] included). *)
Definition Task `{RecordStore} (A : Type) : Type :=
  Machine → Settled A * Machine.

Section Tasks.

Context `{RecordStore}.

Global Instance Task_ret : MRet Task := λ A a m, (Fulfilled a, m).

Global Instance Task_bind : MBind Task := λ A B k t m,
  match t m with
  | (Fulfilled a, m') => k a m'
  | (Rejected e, m') => (Rejected e, m')
  end.

Definition throw {A} (e : Error) : Task A := λ m, (Rejected e, m).

(** [try { body } catch (error) { handler }] *)
Definition try_catch {A} (body : Task A) (handler : Error → Task A) : Task A :=
  λ m,
    match body m with
    | (Fulfilled a, m') => (Fulfilled a, m')
    | (Rejected e, m') => handler e m'
    end.

(** [await p] for a promise that has settled to [p]. *)
Definition await {A} (p : Settled A) : Task A :=
  match p with
  | Fulfilled a => mret a
  | Rejected e => throw e
  end.

Definition read {A} (f : Machine → A) : Task A := λ m, (Fulfilled (f m), m).

Definition emit (e : Event) : Task unit := λ m,
  (Fulfilled (),
   {| app := app m; db := db m; clock := clock m;
      journal := journal m ++ [e] |}).

Definition set_app (f : AppState → AppState) : Task unit := λ m,
  (Fulfilled (),
   {| app := f (app m); db := db m; clock := clock m;
      journal := journal m |}).

(** The machine a task leaves behind, and how the task ended. *)
Definition after {A} (t : Task A) (m : Machine) : Machine := (t m).2.
Definition outcome {A} (t : Task A) (m : Machine) : Settled A := (t m).1.

(** *** State setters of [useState] *)

Definition setUser (u : option User) : Task unit :=
  set_app (λ s,
    {| user := u; loading := loading s; exercises := exercises s;
       activeTab := activeTab s; showAddForm := showAddForm s;
       formData := formData s |}).

Definition setLoading (b : bool) : Task unit :=
  set_app (λ s,
    {| user := user s; loading := b; exercises := exercises s;
       activeTab := activeTab s; showAddForm := showAddForm s;
       formData := formData s |}).

Definition setExercises (data : list Exercise) : Task unit :=
  set_app (λ s,
    {| user := user s; loading := loading s; exercises := data;
       activeTab := activeTab s; showAddForm := showAddForm s;
       formData := formData s |}).

Definition setActiveTab (c : Category) : Task unit :=
  set_app (λ s,
    {| user := user s; loading := loading s; exercises := exercises s;
       activeTab := c; showAddForm := showAddForm s;
       formData := formData s |}).

Definition setShowAddForm (b : bool) : Task unit :=
  set_app (λ s,
    {| user := user s; loading := loading s; exercises := exercises s;
       activeTab := activeTab s; showAddForm := b;
       formData := formData s |}).

Definition setFormData (d : Draft.t) : Task unit :=
  set_app (λ s,
    {| user := user s; loading := loading s; exercises := exercises s;
       activeTab := activeTab s; showAddForm := showAddForm s;
       formData := d |}).

(** *** Calls to the outside *)

Definition toast (t : Toast) : Task unit := emit (ToastShown t).

Definition console_error (msg : string) (e : Error) : Task unit :=
  emit (ConsoleError msg e).

Definition preventDefault : Task unit := emit PreventDefault.

(** [new Date().toISOString()] *)
Definition Date_now_toISOString : Task string := read clock.

(** [blink.db.exercises.list(q)]: the request is made now; the result is
    the promise's eventual settlement. *)
Definition blink_db_exercises_list (q : Query)
  : Task (Settled (list Exercise)) := λ m,
  let '(d, r) := db_list q (db m) in
  (Fulfilled r,
   {| app := app m; db := d; clock := clock m;
      journal := journal m ++ [ListCall q r] |}).

(** [blink.db.exercises.create(p)] *)
Definition blink_db_exercises_create (p : Payload.t)
  : Task (Settled unit) := λ m,
  let '(d, r) := db_create p (db m) in
  (Fulfilled r,
   {| app := app m; db := d; clock := clock m;
      journal := journal m ++ [CreateCall p r] |}).

(** [blink.auth.login()] *)
Definition blink_auth_login : Task unit := emit LoginCall.

(** [u!.id]: reading a property of [null] throws. *)
Definition nonnull_id (u : option User) : Task string :=
  match u with
  | Some v => mret (uid v)
  | None => throw TypeError
  end.

(** ** The component (lines 30-226) *)

(** The values a handler closes over are those of the render that
    installed it; an event is dispatched to the handlers of the latest
    render, so they are the state at the time the handler starts. *)
Definition render : Task AppState := read app.

(** Lines 44-60. An [async] function runs up to its first [await] when
    it is called and hands back the rest, which runs once the awaited
    promise has settled: the task returns that remainder. *)
Definition loadExercises (user : option User) : Task (Task unit) :=
  match user with
  | None => mret (mret ())
  | Some u =>
      p ← blink_db_exercises_list
            {| where_user_id := uid u; orderBy_created_at := desc |};
      mret (try_catch
              (data ← await p; setExercises data)
              (λ error,
                 console_error "Failed to load exercises:" error;;
                 toast {| title := "Error";
                          description := "Failed to load exercises";
                          variant := Some destructive |}))
  end.

(** Lines 62-74: the subscription callback sets the two cells; after the
    re-render the effect on [user] loads the records of a signed-in
    user. (React skips the effect when the notification carries the very
    same object again; running it is the more permissive reading.) *)
Definition effect_on_user : Task unit :=
  r ← render;
  match user r with
  | Some _ => rest ← loadExercises (user r); rest
  | None => mret ()
  end.

Definition onAuthStateChanged (state_user : option User)
    (state_isLoading : bool) : Task unit :=
  setUser state_user;;
  setLoading state_isLoading;;
  effect_on_user.

(** Lines 76-115. The remainder of the un-awaited [loadExercises()] runs
    after the success toast, outside the handler's own [try]. *)
Definition handleSubmit : Task unit :=
  r ← render;
  let formData := formData r in
  preventDefault;;
  if Js.not (Draft.exercise_name formData) || Js.not (Draft.reps formData)
     || Js.not (Draft.sets formData) || Js.not (Draft.total_weight formData)
  then
    toast {| title := "Error";
             description := "Please fill in all fields";
             variant := Some destructive |}
  else
    rest ← try_catch
      (user_id ← nonnull_id (user r);
       created_at ← Date_now_toISOString;
       p ← blink_db_exercises_create
             {| Payload.user_id := user_id;
                Payload.exercise_name := Draft.exercise_name formData;
                Payload.category := activeTab r;
                Payload.reps := parseInt (Draft.reps formData);
                Payload.sets := parseInt (Draft.sets formData);
                Payload.total_weight := parseFloat (Draft.total_weight formData);
                Payload.created_at := created_at |};
       await p;;
       setFormData {| Draft.exercise_name := ""; Draft.reps := "";
                      Draft.sets := ""; Draft.total_weight := "" |};;
       setShowAddForm false;;
       rest ← loadExercises (user r);
       toast {| title := "Success";
                description := "Exercise logged successfully!";
                variant := None |};;
       mret rest)
      (λ error,
         console_error "Failed to add exercise:" error;;
         toast {| title := "Error";
                  description := "Failed to log exercise";
                  variant := Some destructive |};;
         mret (mret ()));
    rest.

(** The callback of [find] on lines 118-121. *)
Definition is_previous (exerciseName : string) (cat : Category)
    (ex : Exercise) : Prop :=
  toLowerCase (exercise_name ex) = toLowerCase exerciseName ∧
  category ex = cat.

Global Instance is_previous_dec exerciseName cat ex :
  Decision (is_previous exerciseName cat ex).
Proof. unfold is_previous. apply _. Defined.

(** Lines 117-122. [find] yields the element, not its index; its
    [undefined] and the [null] of line 167 are both [None]. *)
Definition getPreviousExercise (exerciseName : string) (cat : Category)
  : Task (option Exercise) :=
  r ← render;
  mret (snd <$> list_find (is_previous exerciseName cat) (exercises r)).

(** Lines 124-126. *)
Definition getFilteredExercises (cat : Category) : Task (list Exercise) :=
  r ← render;
  mret (filter (λ ex, category ex = cat) (exercises r)).

(** Line 167. *)
Definition previousExercise : Task (option Exercise) :=
  r ← render;
  if Js.truthy (Draft.exercise_name (formData r))
  then getPreviousExercise (Draft.exercise_name (formData r)) (activeTab r)
  else mret None.

(** *** Events of the page and their handlers *)

Inductive UiEvent :=
  | AuthStateChanged (state_user : option User) (state_isLoading : bool)
  | ClickSignIn
  | TabsValueChange (value : Category)
  | ClickLogExercise
  | ClickCancel
  | ChangeExerciseName (value : string)
  | ChangeSets (value : string)
  | ChangeReps (value : string)
  | ChangeTotalWeight (value : string)
  | SubmitForm.

Definition dispatch (e : UiEvent) : Task unit :=
  match e with
  | AuthStateChanged u l => onAuthStateChanged u l
  | ClickSignIn => blink_auth_login
  | TabsValueChange value => setActiveTab value
  | ClickLogExercise => r ← render; setShowAddForm (negb (showAddForm r))
  | ClickCancel => setShowAddForm false
  | ChangeExerciseName value =>
      r ← render;
      setFormData {| Draft.exercise_name := value;
                     Draft.reps := Draft.reps (formData r);
                     Draft.sets := Draft.sets (formData r);
                     Draft.total_weight := Draft.total_weight (formData r) |}
  | ChangeSets value =>
      r ← render;
      setFormData {| Draft.exercise_name := Draft.exercise_name (formData r);
                     Draft.reps := Draft.reps (formData r);
                     Draft.sets := value;
                     Draft.total_weight := Draft.total_weight (formData r) |}
  | ChangeReps value =>
      r ← render;
      setFormData {| Draft.exercise_name := Draft.exercise_name (formData r);
                     Draft.reps := value;
                     Draft.sets := Draft.sets (formData r);
                     Draft.total_weight := Draft.total_weight (formData r) |}
  | ChangeTotalWeight value =>
      r ← render;
      setFormData {| Draft.exercise_name := Draft.exercise_name (formData r);
                     Draft.reps := Draft.reps (formData r);
                     Draft.sets := Draft.sets (formData r);
                     Draft.total_weight := value |}
  | SubmitForm => handleSubmit
  end.

End Tasks.

(** ** A concrete host and store, for running the component

    Numbers are named by how they came about, so that no rounding is
    invented; the store is a table in memory behind a connection that
    drops after a given number of calls. *)
Module Sample.

Inductive num :=
  | Literal (z : Z)
  | ParsedInt (s : string)
  | ParsedFloat (s : string).

#[export] Instance builtins : Builtins :=
  {| number := num; parseInt := ParsedInt; parseFloat := ParsedFloat |}.

(** [answers] is the number of calls the store still answers before
    the connection drops. *)
Record table := {
  rows : list Exercise;
  answers : nat;
}.

(** [a] comes no later than [b] when ISO-8601 timestamps are compared as
    text. *)
Definition no_later (a b : string) : Prop := String.leb a b = true.

Global Instance no_later_dec a b : Decision (no_later a b).
Proof. unfold no_later. apply _. Defined.

Definition ordered (d : Direction) (a b : Exercise) : Prop :=
  match d with
  | asc => no_later (created_at a) (created_at b)
  | desc => no_later (created_at b) (created_at a)
  end.

Global Instance ordered_dec d a b : Decision (ordered d a b).
Proof. destruct d; apply _. Defined.

Definition dropped : Error := Rejection "Failed to fetch".

Definition select (q : Query) (t : table) : table * Settled (list Exercise) :=
  match answers t with
  | O => (t, Rejected dropped)
  | S n =>
      ({| rows := rows t; answers := n |},
       Fulfilled
         (merge_sort (ordered (orderBy_created_at q))
            (filter (λ ex, user_id ex = where_user_id q) (rows t))))
  end.

Definition insert (p : Payload.t) (t : table) : table * Settled unit :=
  match answers t with
  | O => (t, Rejected dropped)
  | S n =>
      ({| rows := rows t ++
                  [{| id := pretty (length (rows t));
                      user_id := Payload.user_id p;
                      exercise_name := Payload.exercise_name p;
                      category := Payload.category p;
                      reps := Payload.reps p;
                      sets := Payload.sets p;
                      total_weight := Payload.total_weight p;
                      created_at := Payload.created_at p |}];
          answers := n |},
       Fulfilled ())
  end.

#[export] Instance memory : RecordStore :=
  {| store := table; db_list := select; db_create := insert |}.

Definition ada : User := {| uid := "u1"; email := "ada@example.org" |}.

(** The record of the specification's lookup example. *)
Definition squats : Exercise :=
  {| id := "0"; user_id := "u1"; exercise_name := "Squats";
     category := lower; reps := Literal 8; sets := Literal 3;
     total_weight := Literal 185;
     created_at := "2024-05-01T10:00:00.000Z" |}.

Definition bench : Exercise :=
  {| id := "1"; user_id := "u1"; exercise_name := "Bench Press";
     category := upper; reps := Literal 10; sets := Literal 3;
     total_weight := Literal 135;
     created_at := "2024-05-02T10:00:00.000Z" |}.

Definition old_squats : Exercise :=
  {| id := "2"; user_id := "u1"; exercise_name := "SQUATS";
     category := lower; reps := Literal 5; sets := Literal 5;
     total_weight := Literal 155;
     created_at := "2024-04-01T10:00:00.000Z" |}.

Definition unnamed : Exercise :=
  {| id := "3"; user_id := "u1"; exercise_name := "";
     category := upper; reps := Literal 1; sets := Literal 1;
     total_weight := Literal 0;
     created_at := "2024-03-01T10:00:00.000Z" |}.

Definition machine (d : Draft.t) (tab : Category) (open : bool)
    (loaded : list Exercise) (t : table) : Machine :=
  {| app := {| user := Some ada; loading := false; exercises := loaded;
               activeTab := tab; showAddForm := open; formData := d |};
     db := t;
     clock := "2024-05-03T09:30:00.000Z";
     journal := [] |}.

Definition stored : list Exercise := [unnamed; old_squats; squats; bench].
Definition loaded : list Exercise := [bench; squats; old_squats; unnamed].

(** Typing "squats" on the lower tab. *)
Definition typing : Draft.t :=
  {| Draft.exercise_name := "squats"; Draft.reps := "";
     Draft.sets := ""; Draft.total_weight := "" |}.

Definition complete : Draft.t :=
  {| Draft.exercise_name := "squats"; Draft.reps := "8";
     Draft.sets := "3"; Draft.total_weight := "190" |}.

(** The draft of the specification's rejection example. *)
Definition no_sets : Draft.t :=
  {| Draft.exercise_name := "Bench Press"; Draft.reps := "10";
     Draft.sets := ""; Draft.total_weight := "135" |}.

Definition m_typing : Machine :=
  machine typing lower true loaded {| rows := stored; answers := 9 |}.

Definition m_complete : Machine :=
  machine complete lower true loaded {| rows := stored; answers := 9 |}.

Definition m_no_sets : Machine :=
  machine no_sets upper true loaded {| rows := stored; answers := 9 |}.

(** The store answers nothing. *)
Definition m_offline : Machine :=
  machine complete lower true loaded {| rows := stored; answers := 0 |}.

(** The store answers the [create] and drops the fetch after it. *)
Definition m_dropping : Machine :=
  machine complete lower true loaded {| rows := stored; answers := 1 |}.

(** Nothing in these fields reads as a number. *)
Definition gibberish : Draft.t :=
  {| Draft.exercise_name := "Rows"; Draft.reps := "-3";
     Draft.sets := "many"; Draft.total_weight := "1e999" |}.

Definition m_gibberish : Machine :=
  machine gibberish upper true loaded {| rows := stored; answers := 9 |}.

Definition m_blank : Machine :=
  machine Draft.empty upper true loaded {| rows := stored; answers := 9 |}.

End Sample.

(** ** Vocabulary of the specification *)

(** A list is most-recent-first when no record comes later than one that
    stands before it; [comes_no_later a b] reads "timestamp [a] is not
    after timestamp [b]". *)
Definition most_recent_first `{Builtins} (comes_no_later : relation string)
    (l : list Exercise) : Prop :=
  StronglySorted
    (λ a b, comes_no_later (created_at b) (created_at a)) l.

(** A draft is incomplete when one of its four fields is the empty
    string. *)
Definition incomplete (d : Draft.t) : Prop :=
  Draft.exercise_name d = "" ∨ Draft.reps d = "" ∨
  Draft.sets d = "" ∨ Draft.total_weight d = "".

(** The condition of line 79. *)
Definition validation_fails (d : Draft.t) : bool :=
  Js.not (Draft.exercise_name d) || Js.not (Draft.reps d)
  || Js.not (Draft.sets d) || Js.not (Draft.total_weight d).

(** The four notifications of the component. *)
Definition validation_toast : Toast :=
  {| title := "Error"; description := "Please fill in all fields";
     variant := Some destructive |}.

Definition success_toast : Toast :=
  {| title := "Success"; description := "Exercise logged successfully!";
     variant := None |}.

Definition create_failed_toast : Toast :=
  {| title := "Error"; description := "Failed to log exercise";
     variant := Some destructive |}.

Definition load_failed_toast : Toast :=
  {| title := "Error"; description := "Failed to load exercises";
     variant := Some destructive |}.

(** The [create] and [list] calls of a stretch of journal, in order. *)
Fixpoint create_calls `{Builtins} (evs : list Event) : list Payload.t :=
  match evs with
  | [] => []
  | CreateCall p _ :: rest => p :: create_calls rest
  | _ :: rest => create_calls rest
  end.

Fixpoint list_calls `{Builtins} (evs : list Event) : list Query :=
  match evs with
  | [] => []
  | ListCall q _ :: rest => q :: list_calls rest
  | _ :: rest => list_calls rest
  end.

(** The store after the calls of a stretch of journal have been made on
    it, one after the other. *)
Fixpoint replay `{RecordStore} (evs : list Event) (d : store) : store :=
  match evs with
  | [] => d
  | ListCall q _ :: rest => replay rest (db_list q d).1
  | CreateCall p _ :: rest => replay rest (db_create p d).1
  | _ :: rest => replay rest d
  end.

(** ** Rendering (lines 137-226 and 240-418)

    What the two function components return, reduced to the parts that
    depend on state: the texts with an interpolated value, the values of
    the inputs, the conditional blocks and the mapped list. Styling, icons
    and fixed markup are left out. [formatDate] (lines 128-135) goes
    through the host's [Date] and locale; it is a prop of
    [WorkoutContent] and stays a parameter. The callback props are the
    handlers of [dispatch]. *)

Module Props.
Record t `{Builtins} := {
  category : Category;
  exercises : list Exercise;
  showAddForm : bool;
  formData : Draft.t;
  previousExercise : option Exercise;
  formatDate : string → string;
}.
End Props.

(** The "Previous Entry" card of lines 290-316. *)
Record PreviousEntry `{Builtins} := {
  entry_sets : number;
  entry_reps : number;
  entry_total_weight : number;
  entry_date : string;
}.

(** The form of lines 266-367: its description and what its inputs
    show. *)
Record FormView `{Builtins} := {
  form_description : string;
  exercise_name_value : string;
  previous_entry : option PreviousEntry;
  sets_value : string;
  reps_value : string;
  total_weight_value : string;
}.

(** One card of the history, lines 387-411. *)
Record HistoryCard `{Builtins} := {
  key : string;
  card_name : string;
  card_sets : number;
  card_reps : number;
  card_total_weight : number;
  card_date : string;
}.

Inductive History `{Builtins} :=
  | NoWorkouts (message : string)
  | Workouts (shown : list HistoryCard).

Record WorkoutView `{Builtins} := {
  log_button : string;
  form : option FormView;
  heading : string;
  history : History;
}.

Inductive Screen `{Builtins} :=
  | LoadingScreen
  | SignInScreen
  | TrackerScreen (value : Category) (upper_content lower_content : WorkoutView).

(** A category as the string it is in the source. *)
Definition category_text (c : Category) : string :=
  match c with
  | upper => "upper"
  | lower => "lower"
  end.

Definition history_card `{Builtins} (formatDate : string → string)
    (exercise : Exercise) : HistoryCard :=
  {| key := id exercise;
     card_name := exercise_name exercise;
     card_sets := sets exercise;
     card_reps := reps exercise;
     card_total_weight := total_weight exercise;
     card_date := formatDate (created_at exercise) |}.

(** Lines 240-418. *)
Definition WorkoutContent `{Builtins} (props : Props.t) : WorkoutView :=
  {| log_button :=
       "Log " +:+
       (if decide (Props.category props = upper)
        then "Upper Body" else "Lower Body") +:+
       " Exercise";
     form :=
       if Props.showAddForm props then
         Some
           {| form_description :=
                "Add your " +:+
                (if decide (Props.category props = upper)
                 then "upper body" else "lower body") +:+
                " exercise details";
              exercise_name_value :=
                Draft.exercise_name (Props.formData props);
              previous_entry :=
                match Props.previousExercise props with
                | Some previousExercise =>
                    Some {| entry_sets := sets previousExercise;
                            entry_reps := reps previousExercise;
                            entry_total_weight :=
                              total_weight previousExercise;
                            entry_date :=
                              Props.formatDate props
                                (created_at previousExercise) |}
                | None => None
                end;
              sets_value := Draft.sets (Props.formData props);
              reps_value := Draft.reps (Props.formData props);
              total_weight_value :=
                Draft.total_weight (Props.formData props) |}
       else None;
     heading :=
       "Recent " +:+
       (if decide (Props.category props = upper)
        then "Upper Body" else "Lower Body") +:+
       " Workouts";
     history :=
       if decide (length (Props.exercises props) = 0%nat) then
         NoWorkouts
           ("No " +:+ category_text (Props.category props) +:+
            " body exercises logged yet")
       else
         Workouts
           (history_card (Props.formatDate props) <$> Props.exercises props) |}.

(** Lines 137-226: the two early returns, then the tabs with one
    [WorkoutContent] each. *)
Definition App `{RecordStore} (formatDate : string → string) : Task Screen :=
  r ← render;
  if loading r then mret LoadingScreen
  else
    match user r with
    | None => mret SignInScreen
    | Some _ =>
        previous ← previousExercise;
        upper_exercises ← getFilteredExercises upper;
        lower_exercises ← getFilteredExercises lower;
        mret (TrackerScreen (activeTab r)
                (WorkoutContent
                   {| Props.category := upper;
                      Props.exercises := upper_exercises;
                      Props.showAddForm := showAddForm r;
                      Props.formData := formData r;
                      Props.previousExercise := previous;
                      Props.formatDate := formatDate |})
                (WorkoutContent
                   {| Props.category := lower;
                      Props.exercises := lower_exercises;
                      Props.showAddForm := showAddForm r;
                      Props.formData := formData r;
                      Props.previousExercise := previous;
                      Props.formatDate := formatDate |}))
    end.

(** The content a screen holds for a tab, and the cards of a history. *)
Definition content_of `{Builtins} (c : Category) (s : Screen)
    : option WorkoutView :=
  match s with
  | TrackerScreen _ upper_content lower_content =>
      Some (match c with
            | upper => upper_content
            | lower => lower_content
            end)
  | _ => None
  end.

Definition cards `{Builtins} (h : History) : list HistoryCard :=
  match h with
  | NoWorkouts _ => []
  | Workouts shown => shown
  end.

(** ** Events in sequence

    The page handles its events one after the other; each comes with the
    time the clock shows when it is handled. *)

Definition set_clock `{RecordStore} (now : string) : Task unit := λ m,
  (Fulfilled (),
   {| app := app m; db := db m; clock := now; journal := journal m |}).

Fixpoint dispatch_all `{RecordStore} (events : list (string * UiEvent))
    : Task unit :=
  match events with
  | [] => mret ()
  | (now, e) :: rest => set_clock now;; dispatch e;; dispatch_all rest
  end.

(** Events whose handlers only set cells of the form and the tabs. *)
Definition local_event (e : UiEvent) : bool :=
  match e with
  | AuthStateChanged _ _ | ClickSignIn | SubmitForm => false
  | _ => true
  end.


(** What the [catch] of [loadExercises] adds to the journal once the
    fetch has settled, and the list that is loaded then. *)
Definition load_report `{Builtins} (listed : Settled (list Exercise))
    : list Event :=
  match listed with
  | Fulfilled _ => []
  | Rejected e =>
      [ConsoleError "Failed to load exercises:" e;
       ToastShown load_failed_toast]
  end.

Definition loaded_after `{Builtins} (listed : Settled (list Exercise))
    (before : list Exercise) : list Exercise :=
  match listed with
  | Fulfilled data => data
  | Rejected _ => before
  end.

(** The value an event types into one input, if it is typed there. *)
Definition typed_name (e : UiEvent) : option string :=
  match e with ChangeExerciseName value => Some value | _ => None end.

Definition typed_sets (e : UiEvent) : option string :=
  match e with ChangeSets value => Some value | _ => None end.

Definition typed_reps (e : UiEvent) : option string :=
  match e with ChangeReps value => Some value | _ => None end.

Definition typed_total_weight (e : UiEvent) : option string :=
  match e with ChangeTotalWeight value => Some value | _ => None end.

Definition chosen_tab (e : UiEvent) : option Category :=
  match e with TabsValueChange value => Some value | _ => None end.

(** The latest value a sequence of events gives through [pick]. *)
Fixpoint latest {A} (pick : UiEvent → option A)
    (events : list (string * UiEvent)) : option A :=
  match events with
  | [] => None
  | (_, e) :: rest =>
      match latest pick rest with
      | Some a => Some a
      | None => pick e
      end
  end.

(** ** Facts about lists *)

Section ListFacts.

Context {A : Type}.
Implicit Types l k : list A.

Lemma StronglySorted_lookup (R : relation A) l i j x y :
  StronglySorted R l →
  l !! i = Some x → l !! j = Some y → (i < j)%nat → R x y.
Proof.
  intros Hs. revert i j.
  induction Hs as [|a l Hs IH Hall]; intros i j Hi Hj Hlt.
  - by rewrite lookup_nil in Hi.
  - destruct j as [|j]; [lia|]. simpl in Hj.
    destruct i as [|i]; simpl in Hi.
    + injection Hi as <-.
      rewrite Forall_forall in Hall.
      apply Hall. eapply list_elem_of_lookup_2. exact Hj.
    + apply (IH i j); [done..|lia].
Qed.

(** [filter P l] is the largest sublist of [l] made of elements with
    [P]. *)
Lemma sublist_filter_greatest (P : A → Prop) `{!∀ x, Decision (P x)} l k :
  k `sublist_of` l → Forall P k → k `sublist_of` filter P l.
Proof.
  induction 1 as [|x k l Hkl IH|x k l Hkl IH]; intros Hall.
  - constructor.
  - apply Forall_cons in Hall as [Hx Hall].
    rewrite filter_cons_True by done.
    apply sublist_skip. by apply IH.
  - rewrite filter_cons. destruct (decide (P x)).
    + apply sublist_cons. by apply IH.
    + by apply IH.
Qed.

End ListFacts.

(** ** The two list helpers *)

Section Helpers.

Context `{RecordStore}.
Implicit Types m : Machine.

Lemma getPreviousExercise_run m exerciseName cat :
  getPreviousExercise exerciseName cat m =
    (Fulfilled
       (snd <$> list_find (is_previous exerciseName cat) (exercises (app m))),
     m).
Proof. reflexivity. Qed.

Lemma getFilteredExercises_run m cat :
  getFilteredExercises cat m =
    (Fulfilled (filter (λ ex, category ex = cat) (exercises (app m))), m).
Proof. reflexivity. Qed.

(** C1. On a list that is most-recent-first, [getPreviousExercise] returns
    the first record whose lower-cased name equals the lower-cased
    candidate and whose category is the target; every other such record
    stands after it and is no more recent. It returns none exactly when
    no record matches. *)
Theorem getPreviousExercise_first_and_most_recent
    (comes_no_later : relation string) m exerciseName cat :
  most_recent_first comes_no_later (exercises (app m)) →
  match outcome (getPreviousExercise exerciseName cat) m with
  | Fulfilled (Some r) =>
      ∃ i, exercises (app m) !! i = Some r ∧
           is_previous exerciseName cat r ∧
           ∀ j y, exercises (app m) !! j = Some y →
                  is_previous exerciseName cat y →
                  (i ≤ j)%nat ∧
                  ((i < j)%nat →
                   comes_no_later (created_at y) (created_at r))
  | Fulfilled None =>
      ∀ y, y ∈ exercises (app m) → ¬ is_previous exerciseName cat y
  | Rejected _ => False
  end.
Proof.
  intros Hsorted. unfold outcome.
  rewrite getPreviousExercise_run. simpl.
  destruct (list_find _ _) as [[i r]|] eqn:Hfind; simpl.
  - apply list_find_Some in Hfind as (Hi & Hr & Hfirst).
    exists i. split_and!; [done..|].
    intros j y Hj Hy. split.
    + destruct (decide (i ≤ j)%nat) as [|Hn]; [done|].
      destruct (Hfirst j y); [done|lia|done].
    + intros Hlt.
      exact (StronglySorted_lookup _ _ i j r y Hsorted Hi Hj Hlt).
  - apply list_find_None in Hfind.
    rewrite Forall_forall in Hfind. exact Hfind.
Qed.

(** C4. The view of a category holds exactly the loaded records of that
    category, in the order of the loaded list: it is a sublist of the
    list, and every sublist made of records of the category is a sublist
    of the view. *)
Theorem getFilteredExercises_exact_in_order m cat :
  ∃ view,
    getFilteredExercises cat m = (Fulfilled view, m) ∧
    (∀ ex, ex ∈ view ↔ ex ∈ exercises (app m) ∧ category ex = cat) ∧
    view `sublist_of` exercises (app m) ∧
    (∀ k, k `sublist_of` exercises (app m) →
          Forall (λ ex, category ex = cat) k →
          k `sublist_of` view).
Proof.
  eexists. split; [apply getFilteredExercises_run|]. split_and!.
  - intros ex. rewrite list_elem_of_filter. tauto.
  - apply sublist_filter.
  - intros k. apply sublist_filter_greatest.
Qed.

(** C8. Evaluating either helper, or the previous-entry constant of the
    render, leaves the whole machine as it was: component state, store,
    clock and journal. *)
Theorem helpers_leave_machine_unchanged m exerciseName cat :
  after (getPreviousExercise exerciseName cat) m = m ∧
  after (getFilteredExercises cat) m = m ∧
  after previousExercise m = m.
Proof.
  split_and!; try reflexivity.
  unfold after, previousExercise. simpl.
  unfold mbind, Task_bind, render, read.
  by destruct (Js.truthy _).
Qed.

(** C9. The upper and the lower view split the loaded list: together
    they are a rearrangement of it, and no record is in both. *)
Theorem views_partition m :
  ∃ up low,
    getFilteredExercises upper m = (Fulfilled up, m) ∧
    getFilteredExercises lower m = (Fulfilled low, m) ∧
    up ++ low ≡ₚ exercises (app m) ∧
    (∀ ex, ex ∈ up → ex ∉ low) ∧
    (∀ ex, ex ∈ exercises (app m) →
           (ex ∈ up ∧ ex ∉ low) ∨ (ex ∈ low ∧ ex ∉ up)).
Proof.
  do 2 eexists.
  split; [apply getFilteredExercises_run|].
  split; [apply getFilteredExercises_run|].
  split_and!.
  - rewrite (list_filter_iff (λ ex, category ex = lower)
               (λ ex, ¬ category ex = upper)).
    + apply filter_app_complement.
    + intros ex. destruct (category ex); split; congruence.
  - intros ex. rewrite !list_elem_of_filter. intros [? _] [? _]. congruence.
  - intros ex Hex. rewrite !list_elem_of_filter.
    destruct (category ex) eqn:Hc; [left|right];
      (split; [done|intros [? _]; congruence]).
Qed.

(** C10. With an empty name in the draft the previous entry of the
    render is none, whatever the loaded list holds. *)
Theorem previousExercise_none_on_empty_name m :
  Draft.exercise_name (formData (app m)) = "" →
  previousExercise m = (Fulfilled None, m).
Proof.
  intros Hname. unfold previousExercise.
  unfold mbind, Task_bind, render, read. by rewrite Hname.
Qed.

End Helpers.

(** ** The handlers *)

Section Handlers.

Context `{RecordStore}.
Implicit Types m : Machine.

(** The argument [handleSubmit] passes to [create] when [u] is signed
    in, and the query of [loadExercises]. *)
Local Abbreviation payload_of m u :=
  {| Payload.user_id := uid u;
     Payload.exercise_name := Draft.exercise_name (formData (app m));
     Payload.category := activeTab (app m);
     Payload.reps := parseInt (Draft.reps (formData (app m)));
     Payload.sets := parseInt (Draft.sets (formData (app m)));
     Payload.total_weight :=
       parseFloat (Draft.total_weight (formData (app m)));
     Payload.created_at := clock m |}.

Local Abbreviation query_of u :=
  {| where_user_id := uid u; orderBy_created_at := desc |}.

Lemma not_empty_iff s : Js.not s = true ↔ s = "".
Proof. destruct s; simpl; split; congruence. Qed.

Lemma validation_fails_iff (d : Draft.t) :
  validation_fails d = true ↔ incomplete d.
Proof.
  unfold incomplete, validation_fails.
  rewrite !orb_true_iff, !not_empty_iff. tauto.
Qed.

(** A preorder on stores that [list] and [create] respect is respected by
    any sequence of journaled calls. *)
Lemma replay_related (keeps : relation store) `{!PreOrder keeps} evs d :
  (∀ q d, keeps d (db_list q d).1) →
  (∀ p d, keeps d (db_create p d).1) →
  keeps d (replay evs d).
Proof.
  intros Hl Hc. revert d.
  induction evs as [|ev evs IH]; intros d; cbn; [reflexivity|].
  destruct ev; try apply IH.
  - etransitivity; [apply Hl|apply IH].
  - etransitivity; [apply Hc|apply IH].
Qed.

(** Unfolds a task down to the machine it computes. *)
Ltac run_task :=
  unfold handleSubmit, onAuthStateChanged, effect_on_user, loadExercises,
    try_catch, await, throw, nonnull_id, toast, console_error,
    preventDefault, Date_now_toISOString, blink_db_exercises_list,
    blink_db_exercises_create, blink_auth_login, setUser, setLoading,
    setExercises, setActiveTab, setShowAddForm, setFormData, set_app,
    emit, read, render, mbind, mret, Task_bind, Task_ret;
  cbn.

(** What [handleSubmit] does on an incomplete draft. *)
Lemma handleSubmit_invalid m :
  incomplete (formData (app m)) →
  handleSubmit m =
    (Fulfilled (),
     {| app := app m; db := db m; clock := clock m;
        journal := journal m ++ [PreventDefault; ToastShown validation_toast] |}).
Proof.
  intros Hinc%validation_fails_iff.
  unfold validation_fails in Hinc.
  run_task. rewrite Hinc. cbn. by rewrite <- app_assoc.
Qed.

(** What it does on a complete draft when nobody is signed in: building
    the argument of [create] throws, and the [catch] reports it. *)
Lemma handleSubmit_signed_out m :
  ¬ incomplete (formData (app m)) →
  user (app m) = None →
  handleSubmit m =
    (Fulfilled (),
     {| app := app m; db := db m; clock := clock m;
        journal := journal m ++
          [PreventDefault;
           ConsoleError "Failed to add exercise:" TypeError;
           ToastShown create_failed_toast] |}).
Proof.
  intros Hok Hu. rewrite <- validation_fails_iff in Hok.
  apply not_true_is_false in Hok. unfold validation_fails in Hok.
  run_task. rewrite Hok, Hu. cbn. by rewrite <- !app_assoc.
Qed.

(** What it does on a complete draft of a signed-in user, by the way the
    two store calls settle. *)
Lemma handleSubmit_valid m u :
  ¬ incomplete (formData (app m)) →
  user (app m) = Some u →
  handleSubmit m =
    let '(d1, created) := db_create (payload_of m u) (db m) in
    match created with
    | Rejected e =>
        (Fulfilled (),
         {| app := app m; db := d1; clock := clock m;
            journal := journal m ++
              [PreventDefault;
               CreateCall (payload_of m u) (Rejected e);
               ConsoleError "Failed to add exercise:" e;
               ToastShown create_failed_toast] |})
    | Fulfilled _ =>
        let '(d2, listed) := db_list (query_of u) d1 in
        (Fulfilled (),
         {| app :=
              {| user := user (app m); loading := loading (app m);
                 exercises :=
                   match listed with
                   | Fulfilled data => data
                   | Rejected _ => exercises (app m)
                   end;
                 activeTab := activeTab (app m);
                 showAddForm := false;
                 formData := Draft.empty |};
            db := d2; clock := clock m;
            journal := journal m ++
              [PreventDefault;
               CreateCall (payload_of m u) (Fulfilled ());
               ListCall (query_of u) listed;
               ToastShown success_toast] ++
              match listed with
              | Fulfilled _ => []
              | Rejected e =>
                  [ConsoleError "Failed to load exercises:" e;
                   ToastShown load_failed_toast]
              end |})
    end.
Proof.
  intros Hok Hu. rewrite <- validation_fails_iff in Hok.
  apply not_true_is_false in Hok. unfold validation_fails in Hok.
  run_task. rewrite Hok, Hu. cbn.
  destruct (db_create _ _) as [d1 [[]|e]]; cbn.
  - destruct (db_list _ _) as [d2 [data|e]]; cbn;
      by rewrite <- ?app_assoc, ?Hu.
  - by rewrite <- !app_assoc.
Qed.

(** What the effect on [user] does for a signed-in user. *)
Lemma effect_on_user_signed_in m u :
  user (app m) = Some u →
  effect_on_user m =
    let '(d, listed) := db_list (query_of u) (db m) in
    (Fulfilled (),
     {| app :=
          {| user := user (app m); loading := loading (app m);
             exercises :=
               match listed with
               | Fulfilled data => data
               | Rejected _ => exercises (app m)
               end;
             activeTab := activeTab (app m);
             showAddForm := showAddForm (app m);
             formData := formData (app m) |};
        db := d; clock := clock m;
        journal := journal m ++
          [ListCall (query_of u) listed] ++
          match listed with
          | Fulfilled _ => []
          | Rejected e =>
              [ConsoleError "Failed to load exercises:" e;
               ToastShown load_failed_toast]
          end |}).
Proof.
  intros Hu. run_task. rewrite Hu. cbn.
  destruct (db_list _ _) as [d [data|e]]; cbn.
  - destruct m as [[] ? ? ?]; cbn in *. by subst.
  - destruct m as [[] ? ? ?]; cbn in *. subst. by rewrite <- !app_assoc.
Qed.

(** C2. Submitting a complete draft of a signed-in user makes exactly one
    [create] call, for a record whose category is the active tab and
    whose timestamp is the current time. When the store fulfils it, the
    draft is emptied, the form is closed and the list is fetched again
    for that user: the loaded list becomes what the fetch returns. *)
Theorem handleSubmit_creates_one_record m u :
  user (app m) = Some u →
  ¬ incomplete (formData (app m)) →
  ∃ new,
    journal (after handleSubmit m) = journal m ++ new ∧
    create_calls new = [payload_of m u] ∧
    ∀ d1, db_create (payload_of m u) (db m) = (d1, Fulfilled ()) →
      formData (app (after handleSubmit m)) = Draft.empty ∧
      showAddForm (app (after handleSubmit m)) = false ∧
      list_calls new = [query_of u] ∧
      db (after handleSubmit m) = (db_list (query_of u) d1).1 ∧
      ∀ data, (db_list (query_of u) d1).2 = Fulfilled data →
        exercises (app (after handleSubmit m)) = data.
Proof.
  intros Hu Hok. unfold after.
  rewrite (handleSubmit_valid m u Hok Hu).
  destruct (db_create _ _) as [d1 [[]|e]] eqn:Hcreate.
  - destruct (db_list _ d1) as [d2 listed] eqn:Hlist; cbn.
    eexists. split; [reflexivity|]. split.
    + by destruct listed.
    + intros d1' [= <-]. rewrite Hlist. cbn.
      split_and!; [done|done|by destruct listed|done|].
      by intros data ->.
  - cbn. eexists. split; [reflexivity|]. split; [done|].
    intros d1' [=].
Qed.

(** C3. Submitting an incomplete draft makes no store call at all, shows
    the validation notification, and leaves the component state (draft,
    open form, loaded list) and the store as they were. *)
Theorem handleSubmit_rejects_incomplete_draft m :
  incomplete (formData (app m)) →
  ∃ new,
    journal (after handleSubmit m) = journal m ++ new ∧
    new = [PreventDefault; ToastShown validation_toast] ∧
    create_calls new = [] ∧
    db (after handleSubmit m) = db m ∧
    app (after handleSubmit m) = app m ∧
    outcome handleSubmit m = Fulfilled ().
Proof.
  intros Hinc. unfold after, outcome.
  rewrite (handleSubmit_invalid m Hinc). cbn.
  eexists. by split_and!.
Qed.

(** C5. A rejected store call is caught and reported, and the component
    state stays as it was: a rejected fetch leaves the loaded list, a
    rejected [create] leaves the draft and the open form as well; a fetch
    rejected after a fulfilled [create] still leaves the loaded list. *)
Theorem store_failures_are_caught m u e :
  user (app m) = Some u →
  (∀ d, db_list (query_of u) (db m) = (d, Rejected e) →
     outcome effect_on_user m = Fulfilled () ∧
     app (after effect_on_user m) = app m ∧
     journal (after effect_on_user m) =
       journal m ++
         [ListCall (query_of u) (Rejected e);
          ConsoleError "Failed to load exercises:" e;
          ToastShown load_failed_toast]) ∧
  (¬ incomplete (formData (app m)) →
   ∀ d, db_create (payload_of m u) (db m) = (d, Rejected e) →
     outcome handleSubmit m = Fulfilled () ∧
     app (after handleSubmit m) = app m ∧
     journal (after handleSubmit m) =
       journal m ++
         [PreventDefault;
          CreateCall (payload_of m u) (Rejected e);
          ConsoleError "Failed to add exercise:" e;
          ToastShown create_failed_toast]) ∧
  (¬ incomplete (formData (app m)) →
   ∀ d1 d2,
     db_create (payload_of m u) (db m) = (d1, Fulfilled ()) →
     db_list (query_of u) d1 = (d2, Rejected e) →
     outcome handleSubmit m = Fulfilled () ∧
     exercises (app (after handleSubmit m)) = exercises (app m) ∧
     journal (after handleSubmit m) =
       journal m ++
         [PreventDefault;
          CreateCall (payload_of m u) (Fulfilled ());
          ListCall (query_of u) (Rejected e);
          ToastShown success_toast;
          ConsoleError "Failed to load exercises:" e;
          ToastShown load_failed_toast]).
Proof.
  intros Hu. split_and!.
  - intros d Hlist. unfold outcome, after.
    rewrite (effect_on_user_signed_in m u Hu), Hlist. cbn.
    split_and!; [done| |done].
    destruct m as [[] ? ? ?]; cbn in *. by subst.
  - intros Hok d Hcreate. unfold outcome, after.
    by rewrite (handleSubmit_valid m u Hok Hu), Hcreate.
  - intros Hok d1 d2 Hcreate Hlist. unfold outcome, after.
    by rewrite (handleSubmit_valid m u Hok Hu), Hcreate, Hlist.
Qed.

(** C6. The validation notification is the whole effect of a submission
    exactly when the draft is incomplete. Any other submission of a
    signed-in user goes straight to [create] with [parseInt] of the reps
    and sets fields and [parseFloat] of the weight field, whatever these
    turn out to be. *)
Theorem handleSubmit_checks_presence_only m :
  (journal (after handleSubmit m) =
     journal m ++ [PreventDefault; ToastShown validation_toast]
   ↔ incomplete (formData (app m))) ∧
  (∀ u, user (app m) = Some u → ¬ incomplete (formData (app m)) →
     ∃ p settled rest,
       journal (after handleSubmit m) =
         journal m ++ PreventDefault :: CreateCall p settled :: rest ∧
       Payload.reps p = parseInt (Draft.reps (formData (app m))) ∧
       Payload.sets p = parseInt (Draft.sets (formData (app m))) ∧
       Payload.total_weight p =
         parseFloat (Draft.total_weight (formData (app m)))).
Proof.
  split.
  - split.
    + intros Hj.
      destruct (decide (validation_fails (formData (app m)) = true))
        as [Hv|Hv]; [by apply validation_fails_iff|].
      rewrite validation_fails_iff in Hv. exfalso. revert Hj. unfold after.
      destruct (user (app m)) as [u|] eqn:Hu.
      * rewrite (handleSubmit_valid m u Hv Hu).
        destruct (db_create _ _) as [d1 [[]|e]].
        -- destruct (db_list _ _) as [d2 listed]. cbn.
           intros Hj%app_inv_head. discriminate.
        -- cbn. intros Hj%app_inv_head. discriminate.
      * rewrite (handleSubmit_signed_out m Hv Hu). cbn.
        intros Hj%app_inv_head. discriminate.
    + intros Hinc. unfold after. by rewrite (handleSubmit_invalid m Hinc).
  - intros u Hu Hok. unfold after.
    rewrite (handleSubmit_valid m u Hok Hu).
    destruct (db_create _ _) as [d1 [[]|e]].
    + destruct (db_list _ _) as [d2 listed]. cbn.
      by do 3 eexists.
    + cbn. by do 3 eexists.
Qed.

(** C7. Whatever the event, the store is reached only through the
    [list] and [create] calls of the journal, with at most one [create]
    and none unless the event is a submission; so whatever [list] and
    [create] themselves keep of the stored records, every event keeps. The
    loaded list is either left as it was or replaced as a whole by what a
    [list] call of that very event returned. *)
Theorem records_are_never_edited e m :
  ∃ new,
    journal (after (dispatch e) m) = journal m ++ new ∧
    db (after (dispatch e) m) = replay new (db m) ∧
    (length (create_calls new) ≤ 1)%nat ∧
    (e ≠ SubmitForm → create_calls new = []) ∧
    (exercises (app (after (dispatch e) m)) = exercises (app m) ∨
     ∃ q data,
       ListCall q (Fulfilled data) ∈ new ∧
       exercises (app (after (dispatch e) m)) = data) ∧
    (∀ keeps : relation store,
       PreOrder keeps →
       (∀ q d, keeps d (db_list q d).1) →
       (∀ p d, keeps d (db_create p d).1) →
       keeps (db m) (db (after (dispatch e) m))).
Proof.
  cut (∃ new,
    journal (after (dispatch e) m) = journal m ++ new ∧
    db (after (dispatch e) m) = replay new (db m) ∧
    (length (create_calls new) ≤ 1)%nat ∧
    (e ≠ SubmitForm → create_calls new = []) ∧
    (exercises (app (after (dispatch e) m)) = exercises (app m) ∨
     ∃ q data,
       ListCall q (Fulfilled data) ∈ new ∧
       exercises (app (after (dispatch e) m)) = data)).
  { intros (new & Hj & Hdb & Hone & Hsubmit & Hlist).
    exists new. split_and!; [done..|].
    intros keeps Hpre Hl Hc. rewrite Hdb. by apply replay_related. }
  unfold after.
  destruct e as [state_user state_isLoading| | | | | | | | |]; cbn [dispatch].
  - (* AuthStateChanged *)
    run_task. destruct state_user as [u|]; cbn.
    + destruct (db_list _ _) as [d listed] eqn:Hlist; cbn.
      destruct listed as [data|err]; cbn.
      * exists [ListCall (query_of u) (Fulfilled data)]. cbn.
        rewrite Hlist. split_and!; [done|done|lia|done|].
        right. exists (query_of u), data. split; [|done].
        apply list_elem_of_singleton. done.
      * exists [ListCall (query_of u) (Rejected err);
                ConsoleError "Failed to load exercises:" err;
                ToastShown load_failed_toast]. cbn.
        rewrite Hlist, <- !app_assoc. split_and!; [done|done|lia|done|].
        by left.
    + exists []. rewrite app_nil_r. cbn. split_and!; [done|done|lia|done|].
      by left.
  - (* ClickSignIn *)
    run_task. exists [LoginCall]. cbn.
    split_and!; [done|done|lia|done|]. by left.
  - run_task. exists []. rewrite app_nil_r. cbn.
    split_and!; [done|done|lia|done|]. by left.
  - run_task. exists []. rewrite app_nil_r. cbn.
    split_and!; [done|done|lia|done|]. by left.
  - run_task. exists []. rewrite app_nil_r. cbn.
    split_and!; [done|done|lia|done|]. by left.
  - run_task. exists []. rewrite app_nil_r. cbn.
    split_and!; [done|done|lia|done|]. by left.
  - run_task. exists []. rewrite app_nil_r. cbn.
    split_and!; [done|done|lia|done|]. by left.
  - run_task. exists []. rewrite app_nil_r. cbn.
    split_and!; [done|done|lia|done|]. by left.
  - run_task. exists []. rewrite app_nil_r. cbn.
    split_and!; [done|done|lia|done|]. by left.
  - (* SubmitForm *)
    destruct (decide (validation_fails (formData (app m)) = true))
      as [Hv|Hv]; rewrite validation_fails_iff in Hv.
    { rewrite (handleSubmit_invalid m Hv). cbn.
      eexists. split; [reflexivity|]. cbn.
      split_and!; [done|lia|done|]. by left. }
    destruct (user (app m)) as [u|] eqn:Hu.
    + rewrite (handleSubmit_valid m u Hv Hu).
      destruct (db_create _ _) as [d1 [[]|err]] eqn:Hcreate.
      * destruct (db_list _ d1) as [d2 listed] eqn:Hlist; cbn.
        eexists. split; [reflexivity|]. cbn.
        rewrite Hcreate. cbn. rewrite Hlist. cbn.
        destruct listed as [data|err]; cbn.
        -- split_and!; [done|lia|done|].
           right. exists (query_of u), data. split; [|done].
           do 2 apply list_elem_of_further. apply list_elem_of_here.
        -- split_and!; [done|lia|done|]. by left.
      * cbn. eexists. split; [reflexivity|]. cbn. rewrite Hcreate. cbn.
        split_and!; [done|lia|done|]. by left.
    + rewrite (handleSubmit_signed_out m Hv Hu). cbn.
      eexists. split; [reflexivity|]. cbn.
      split_and!; [done|lia|done|]. by left.
Qed.

End Handlers.

(** ** The properties at concrete inputs *)

Section Runs.

Import Sample.

Example toLowerCase_Squats : toLowerCase "Squats" = "squats".
Proof. reflexivity. Qed.

Example toLowerCase_keeps_the_rest : toLowerCase "Leg-Press 45" = "leg-press 45".
Proof. reflexivity. Qed.

Example lower_view_of_loaded :
  outcome (getFilteredExercises lower) m_typing
    = Fulfilled [squats; old_squats].
Proof. reflexivity. Qed.

(** A draft whose number fields hold no plausible number is sent to the
    store as it parses. *)
Example handleSubmit_sends_what_parses :
  create_calls (journal (after handleSubmit m_gibberish)) =
    [{| Payload.user_id := "u1";
        Payload.exercise_name := "Rows";
        Payload.category := upper;
        Payload.reps := ParsedInt "-3";
        Payload.sets := ParsedInt "many";
        Payload.total_weight := ParsedFloat "1e999";
        Payload.created_at := "2024-05-03T09:30:00.000Z" |}].
Proof. reflexivity. Qed.

Lemma loaded_most_recent_first : most_recent_first no_later loaded.
Proof. unfold most_recent_first, loaded. repeat constructor. Qed.

Lemma complete_is_complete : ¬ incomplete complete.
Proof. intros [H|[H|[H|H]]]; discriminate H. Qed.

(** The lookup example of the specification: "squats" on the lower tab
    finds the record named "Squats", the most recent of the two lower
    records with that name. *)
Lemma getPreviousExercise_first_and_most_recent_witness :
  most_recent_first no_later (exercises (app m_typing)) ∧
  outcome (getPreviousExercise "squats" lower) m_typing
    = Fulfilled (Some squats) ∧
  ∃ i, exercises (app m_typing) !! i = Some squats ∧
       is_previous "squats" lower squats ∧
       ∀ j y, exercises (app m_typing) !! j = Some y →
              is_previous "squats" lower y →
              (i ≤ j)%nat ∧
              ((i < j)%nat → no_later (created_at y) (created_at squats)).
Proof.
  split; [exact loaded_most_recent_first|].
  split; [reflexivity|].
  exact (getPreviousExercise_first_and_most_recent no_later m_typing
           "squats" lower loaded_most_recent_first).
Defined.

Lemma handleSubmit_creates_one_record_witness :
  user (app m_complete) = Some ada ∧
  ¬ incomplete (formData (app m_complete)) ∧
  formData (app (after handleSubmit m_complete)) = Draft.empty ∧
  showAddForm (app (after handleSubmit m_complete)) = false ∧
  length (rows (db (after handleSubmit m_complete)))
    = S (length (rows (db m_complete))) ∧
  ∃ new,
    journal (after handleSubmit m_complete) = journal m_complete ++ new ∧
    create_calls new =
      [{| Payload.user_id := "u1";
          Payload.exercise_name := "squats";
          Payload.category := lower;
          Payload.reps := ParsedInt "8";
          Payload.sets := ParsedInt "3";
          Payload.total_weight := ParsedFloat "190";
          Payload.created_at := "2024-05-03T09:30:00.000Z" |}].
Proof.
  split; [reflexivity|]. split; [exact complete_is_complete|].
  destruct (handleSubmit_creates_one_record m_complete ada eq_refl
              complete_is_complete) as (new & Hj & Hc & Hdone).
  destruct (Hdone _ eq_refl) as (Hdraft & Hform & _).
  split; [exact Hdraft|]. split; [exact Hform|].
  split; [reflexivity|].
  exists new. split; [exact Hj|exact Hc].
Defined.

(** The rejection example of the specification: the sets field is
    empty. *)
Lemma handleSubmit_rejects_incomplete_draft_witness :
  incomplete (formData (app m_no_sets)) ∧
  ∃ new,
    journal (after handleSubmit m_no_sets) = journal m_no_sets ++ new ∧
    new = [PreventDefault; ToastShown validation_toast] ∧
    create_calls new = [] ∧
    db (after handleSubmit m_no_sets) = db m_no_sets ∧
    app (after handleSubmit m_no_sets) = app m_no_sets ∧
    outcome handleSubmit m_no_sets = Fulfilled ().
Proof.
  assert (Hinc : incomplete (formData (app m_no_sets)))
    by (right; right; left; reflexivity).
  split; [exact Hinc|].
  exact (handleSubmit_rejects_incomplete_draft m_no_sets Hinc).
Defined.

Lemma store_failures_are_caught_witness :
  user (app m_offline) = Some ada ∧
  (outcome effect_on_user m_offline = Fulfilled () ∧
   app (after effect_on_user m_offline) = app m_offline) ∧
  (outcome handleSubmit m_offline = Fulfilled () ∧
   app (after handleSubmit m_offline) = app m_offline) ∧
  (outcome handleSubmit m_dropping = Fulfilled () ∧
   exercises (app (after handleSubmit m_dropping))
     = exercises (app m_dropping)).
Proof.
  split; [reflexivity|].
  destruct (store_failures_are_caught m_offline ada dropped eq_refl)
    as (Hfetch & Hcreate & _).
  destruct (store_failures_are_caught m_dropping ada dropped eq_refl)
    as (_ & _ & Hlater).
  split.
  { destruct (Hfetch _ eq_refl) as (? & ? & _). by split. }
  split.
  { destruct (Hcreate complete_is_complete _ eq_refl) as (? & ? & _).
    by split. }
  destruct (Hlater complete_is_complete _ _ eq_refl eq_refl) as (? & ? & _).
  by split.
Defined.

(** On the table in memory a submission keeps every stored row where it
    was. *)
Lemma records_are_never_edited_witness :
  rows (db m_complete) `prefix_of`
    rows (db (after (dispatch SubmitForm) m_complete)).
Proof.
  destruct (records_are_never_edited SubmitForm m_complete)
    as (new & _ & _ & _ & _ & _ & Hkeeps).
  apply (Hkeeps (λ a b : table, rows a `prefix_of` rows b)).
  - split.
    + intros a. reflexivity.
    + intros a b c Hab Hbc. by etransitivity.
  - intros q d. cbn. unfold select. by destruct (answers d).
  - intros p d. cbn. unfold insert. destruct (answers d); cbn.
    + reflexivity.
    + by apply prefix_app_r.
Defined.

(** A loaded record with an empty name would match the empty candidate,
    yet the render shows no previous entry. *)
Lemma previousExercise_none_on_empty_name_witness :
  Draft.exercise_name (formData (app m_blank)) = "" ∧
  outcome (getPreviousExercise "" upper) m_blank = Fulfilled (Some unnamed) ∧
  previousExercise m_blank = (Fulfilled None, m_blank).
Proof.
  split; [reflexivity|]. split; [reflexivity|].
  exact (previousExercise_none_on_empty_name m_blank eq_refl).
Defined.

End Runs.

(** ** Beyond the claims: the helpers together, and what is rendered *)

Section Views.

Context `{RecordStore}.
Implicit Types m : Machine.

Lemma lower_unit_idempotent c : lower_unit (lower_unit c) = lower_unit c.
Proof. by destruct c as [[] [] [] [] [] [] [] []]. Qed.

Lemma toLowerCase_idempotent s : toLowerCase (toLowerCase s) = toLowerCase s.
Proof.
  induction s as [|c s IH]; [done|].
  cbn. by rewrite lower_unit_idempotent, IH.
Qed.

(** Searching a list for the first element with [P] and [Q] is searching
    its [Q]-filtered part for the first element with [P]. *)
Lemma list_find_filter {A} (P Q : A → Prop)
    `{!∀ x, Decision (P x)} `{!∀ x, Decision (Q x)} (l : list A) :
  snd <$> list_find (λ x, P x ∧ Q x) l = snd <$> list_find P (filter Q l).
Proof.
  induction l as [|x l IH]; [done|].
  rewrite filter_cons. cbn.
  destruct (decide (Q x)) as [HQ|HQ]; cbn.
  - destruct (decide (P x)) as [HP|HP].
    + by rewrite decide_True by done.
    + rewrite decide_False by tauto.
      destruct (list_find (λ x, P x ∧ Q x) l) as [[i y]|];
        destruct (list_find P (filter Q l)) as [[j z]|];
        cbn in *; congruence.
  - rewrite decide_False by tauto.
    destruct (list_find (λ x, P x ∧ Q x) l) as [[i y]|];
      destruct (list_find P (filter Q l)) as [[j z]|];
      cbn in *; congruence.
Qed.

(** X12. The lookup sees the candidate name only up to letter case: the
    lower-cased candidate, and any candidate with the same lower-casing,
    find the same record. *)
Theorem getPreviousExercise_up_to_case m exerciseName cat :
  getPreviousExercise (toLowerCase exerciseName) cat m
    = getPreviousExercise exerciseName cat m ∧
  ∀ other, toLowerCase other = toLowerCase exerciseName →
    getPreviousExercise other cat m = getPreviousExercise exerciseName cat m.
Proof.
  assert (Hsame : ∀ other,
    toLowerCase other = toLowerCase exerciseName →
    getPreviousExercise other cat m = getPreviousExercise exerciseName cat m).
  { intros other Hother. rewrite !getPreviousExercise_run.
    do 3 f_equal. apply list_find_ext. intros ex.
    unfold is_previous. by rewrite Hother. }
  split; [|exact Hsame].
  apply Hsame, toLowerCase_idempotent.
Qed.

(** X13. The previous entry of the render is found in the view of the
    active tab: it is the first record of that view whose name equals the
    draft's up to case, so it is none when the view is empty. *)
Theorem previousExercise_searches_active_view m :
  ∃ view,
    getFilteredExercises (activeTab (app m)) m = (Fulfilled view, m) ∧
    outcome previousExercise m =
      Fulfilled
        (if Js.truthy (Draft.exercise_name (formData (app m))) then
           snd <$> list_find
             (λ ex, toLowerCase (exercise_name ex)
                    = toLowerCase (Draft.exercise_name (formData (app m))))
             view
         else None) ∧
    (∀ r, outcome previousExercise m = Fulfilled (Some r) → r ∈ view) ∧
    (view = [] → outcome previousExercise m = Fulfilled None).
Proof.
  eexists. split; [apply getFilteredExercises_run|].
  assert (Hrun : outcome previousExercise m =
    Fulfilled
      (if Js.truthy (Draft.exercise_name (formData (app m))) then
         snd <$> list_find
           (λ ex, toLowerCase (exercise_name ex)
                  = toLowerCase (Draft.exercise_name (formData (app m))))
           (filter (λ ex, category ex = activeTab (app m))
                   (exercises (app m)))
       else None)).
  { unfold outcome, previousExercise, mbind, Task_bind, render, read.
    destruct (Js.truthy _); [|done].
    rewrite getPreviousExercise_run. cbn. f_equal.
    apply (list_find_filter
             (λ ex, toLowerCase (exercise_name ex)
                    = toLowerCase (Draft.exercise_name (formData (app m))))
             (λ ex, category ex = activeTab (app m))). }
  split; [exact Hrun|]. split.
  - intros r. rewrite Hrun. intros [= Hr].
    destruct (Js.truthy _); [|done].
    destruct (list_find _ _) as [[i x]|] eqn:Hfind; [|done].
    cbn in Hr. injection Hr as ->.
    apply list_find_Some in Hfind as (Hi & _).
    by eapply list_elem_of_lookup_2.
  - intros Hempty. rewrite Hrun, Hempty. by destruct (Js.truthy _).
Qed.

(** What [App] returns for a signed-in user once loading is over. *)
Lemma App_signed_in formatDate m u :
  loading (app m) = false →
  user (app m) = Some u →
  App formatDate m =
    (Fulfilled
       (TrackerScreen (activeTab (app m))
          (WorkoutContent
             {| Props.category := upper;
                Props.exercises :=
                  filter (λ ex, category ex = upper) (exercises (app m));
                Props.showAddForm := showAddForm (app m);
                Props.formData := formData (app m);
                Props.previousExercise :=
                  if Js.truthy (Draft.exercise_name (formData (app m))) then
                    snd <$> list_find
                      (is_previous (Draft.exercise_name (formData (app m)))
                                   (activeTab (app m)))
                      (exercises (app m))
                  else None;
                Props.formatDate := formatDate |})
          (WorkoutContent
             {| Props.category := lower;
                Props.exercises :=
                  filter (λ ex, category ex = lower) (exercises (app m));
                Props.showAddForm := showAddForm (app m);
                Props.formData := formData (app m);
                Props.previousExercise :=
                  if Js.truthy (Draft.exercise_name (formData (app m))) then
                    snd <$> list_find
                      (is_previous (Draft.exercise_name (formData (app m)))
                                   (activeTab (app m)))
                      (exercises (app m))
                  else None;
                Props.formatDate := formatDate |})),
     m).
Proof.
  intros Hl Hu.
  unfold App, mbind, Task_bind, render, read, previousExercise.
  cbn. rewrite Hl, Hu.
  unfold mbind, Task_bind, render, read.
  by destruct (Js.truthy _).
Qed.

(** X3. Rendering changes nothing, and it shows the content of a tab only
    when loading is over and somebody is signed in: the loading screen
    comes first, whoever is signed in, then the sign-in screen, whatever
    the loaded list holds. *)
Theorem App_shows_records_only_when_ready formatDate m :
  after (App formatDate) m = m ∧
  (loading (app m) = true →
   outcome (App formatDate) m = Fulfilled LoadingScreen) ∧
  (loading (app m) = false → user (app m) = None →
   outcome (App formatDate) m = Fulfilled SignInScreen) ∧
  ∀ c,
    (∃ screen content,
       outcome (App formatDate) m = Fulfilled screen ∧
       content_of c screen = Some content)
    ↔ loading (app m) = false ∧ is_Some (user (app m)).
Proof.
  unfold after, outcome.
  destruct (loading (app m)) eqn:Hl.
  - assert (Hrun : App formatDate m = (Fulfilled LoadingScreen, m)).
    { unfold App, mbind, Task_bind, render, read. by rewrite Hl. }
    rewrite Hrun. cbn. split_and!; [done..|].
    intros c. split.
    + by intros (screen & content & [= <-] & Hc).
    + by intros [? _].
  - destruct (user (app m)) as [u|] eqn:Hu.
    + rewrite (App_signed_in formatDate m u Hl Hu). cbn.
      split_and!; [done..|].
      intros c. split; [by intros _|].
      intros _. eexists _, _. split; [reflexivity|]. by destruct c.
    + assert (Hrun : App formatDate m = (Fulfilled SignInScreen, m)).
      { unfold App, mbind, Task_bind, render, read. by rewrite Hl, Hu. }
      rewrite Hrun. cbn. split_and!; [done..|].
      intros c. split.
      * by intros (screen & content & [= <-] & Hc).
      * intros [_ [? [=]]].
Qed.

Lemma cards_WorkoutContent props :
  cards (history (WorkoutContent props))
    = history_card (Props.formatDate props) <$> Props.exercises props.
Proof.
  unfold WorkoutContent. cbn.
  destruct (decide _) as [Hlen|Hlen]; [|done].
  by destruct (Props.exercises props).
Qed.

Lemma history_WorkoutContent_empty props :
  (∃ message, history (WorkoutContent props) = NoWorkouts message)
  ↔ Props.exercises props = [].
Proof.
  unfold WorkoutContent. cbn.
  destruct (decide _) as [Hlen|Hlen].
  - split; [|by eexists]. intros _.
    by destruct (Props.exercises props).
  - split; [by intros [? [=]]|]. intros Hnil. by rewrite Hnil in Hlen.
Qed.

Lemma filter_nil_iff {A} (P : A → Prop) `{!∀ x, Decision (P x)} (l : list A) :
  filter P l = [] ↔ ∀ x, x ∈ l → ¬ P x.
Proof.
  split.
  - intros Hnil x Hx HP.
    assert (Hin : x ∈ filter P l) by by apply list_elem_of_filter.
    rewrite Hnil in Hin. by apply not_elem_of_nil in Hin.
  - intros Hnone. destruct (filter P l) as [|y k] eqn:Hf; [done|].
    assert (Hin : y ∈ filter P l) by (rewrite Hf; apply list_elem_of_here).
    apply list_elem_of_filter in Hin as [HP Hy]. by destruct (Hnone y).
Qed.

Lemma key_history_card formatDate (l : list Exercise) :
  key <$> (history_card formatDate <$> l) = id <$> l.
Proof. rewrite <- list_fmap_compose. by apply list_fmap_ext. Qed.

(** The screen of a render that shows the tabs. *)
Lemma App_tracker_inv formatDate m value up low :
  outcome (App formatDate) m = Fulfilled (TrackerScreen value up low) →
  ∃ u, loading (app m) = false ∧ user (app m) = Some u.
Proof.
  unfold outcome, App, mbind, Task_bind, render, read.
  destruct (loading (app m)); [by intros [=]|].
  destruct (user (app m)) as [u|]; [by exists u|by intros [=]].
Qed.

(** X10. When the tabs are shown, each history has one card per loaded
    record of its category, in the order of the loaded list and keyed by
    the record's id, so the two histories together show every loaded
    record once; a history gives its empty-state message exactly when no
    loaded record has its category. *)
Theorem histories_show_every_loaded_record formatDate m value up low :
  outcome (App formatDate) m = Fulfilled (TrackerScreen value up low) →
  cards (history up)
    = history_card formatDate
        <$> filter (λ ex, category ex = upper) (exercises (app m)) ∧
  cards (history low)
    = history_card formatDate
        <$> filter (λ ex, category ex = lower) (exercises (app m)) ∧
  key <$> (cards (history up) ++ cards (history low))
    ≡ₚ id <$> exercises (app m) ∧
  key <$> cards (history up) `sublist_of` id <$> exercises (app m) ∧
  key <$> cards (history low) `sublist_of` id <$> exercises (app m) ∧
  ((∃ message, history up = NoWorkouts message)
   ↔ ∀ ex, ex ∈ exercises (app m) → category ex ≠ upper) ∧
  ((∃ message, history low = NoWorkouts message)
   ↔ ∀ ex, ex ∈ exercises (app m) → category ex ≠ lower).
Proof.
  intros Hscreen.
  destruct (App_tracker_inv _ _ _ _ _ Hscreen) as (u & Hl & Hu).
  unfold outcome in Hscreen.
  rewrite (App_signed_in formatDate m u Hl Hu) in Hscreen.
  cbn in Hscreen. injection Hscreen as _ <- <-.
  rewrite !history_WorkoutContent_empty, !cards_WorkoutContent. cbn.
  split_and!; [done|done| | | | |].
  - rewrite fmap_app, !key_history_card, <- fmap_app.
    apply fmap_Permutation.
    rewrite (list_filter_iff (λ ex, category ex = lower)
               (λ ex, ¬ category ex = upper)).
    + apply filter_app_complement.
    + intros ex. destruct (category ex); split; congruence.
  - rewrite key_history_card. apply fmap_sublist, sublist_filter.
  - rewrite key_history_card. apply fmap_sublist, sublist_filter.
  - apply filter_nil_iff.
  - apply filter_nil_iff.
Qed.

(** X11. When the tabs are shown, the "Previous Entry" card is part of a
    tab's content exactly when the form is open, the name field is not
    empty and some loaded record of the active tab has that name up to
    case; it then shows the sets, reps, weight and date of such a record.
    Both contents get the entry looked up under the active tab. *)
Theorem previous_entry_card_shown formatDate m value up low c content :
  outcome (App formatDate) m = Fulfilled (TrackerScreen value up low) →
  content_of c (TrackerScreen value up low) = Some content →
  ((∃ f entry, form content = Some f ∧ previous_entry f = Some entry)
   ↔ showAddForm (app m) = true ∧
     Draft.exercise_name (formData (app m)) ≠ "" ∧
     ∃ ex, ex ∈ exercises (app m) ∧
           is_previous (Draft.exercise_name (formData (app m)))
                       (activeTab (app m)) ex) ∧
  (∀ f entry, form content = Some f → previous_entry f = Some entry →
     ∃ ex, ex ∈ exercises (app m) ∧
           is_previous (Draft.exercise_name (formData (app m)))
                       (activeTab (app m)) ex ∧
           entry = {| entry_sets := sets ex; entry_reps := reps ex;
                      entry_total_weight := total_weight ex;
                      entry_date := formatDate (created_at ex) |}).
Proof.
  intros Hscreen Hcontent.
  destruct (App_tracker_inv _ _ _ _ _ Hscreen) as (u & Hl & Hu).
  unfold outcome in Hscreen.
  rewrite (App_signed_in formatDate m u Hl Hu) in Hscreen.
  cbn in Hscreen. injection Hscreen as _ <- <-.
  assert (Hform : form content =
    if showAddForm (app m) then
      Some
        {| form_description :=
             "Add your " +:+
             (if decide (c = upper) then "upper body" else "lower body") +:+
             " exercise details";
           exercise_name_value := Draft.exercise_name (formData (app m));
           previous_entry :=
             match
               (if Js.truthy (Draft.exercise_name (formData (app m))) then
                  snd <$> list_find
                    (is_previous (Draft.exercise_name (formData (app m)))
                                 (activeTab (app m)))
                    (exercises (app m))
                else None)
             with
             | Some ex =>
                 Some {| entry_sets := sets ex; entry_reps := reps ex;
                         entry_total_weight := total_weight ex;
                         entry_date := formatDate (created_at ex) |}
             | None => None
             end;
           sets_value := Draft.sets (formData (app m));
           reps_value := Draft.reps (formData (app m));
           total_weight_value := Draft.total_weight (formData (app m)) |}
    else None).
  { destruct c; cbn in Hcontent; injection Hcontent as <-; reflexivity. }
  rewrite Hform. clear Hform Hcontent.
  destruct (showAddForm (app m)).
  2:{ split; [|by intros f entry [=]].
      split; [by intros (f & entry & [=] & _)|by intros [[=] _]]. }
  destruct (Draft.exercise_name (formData (app m))) as [|ch name] eqn:Hname;
    cbn [Js.truthy Js.not negb].
  { split; [|by intros f entry [= <-] [=]].
    split; [by intros (f & entry & [= <-] & [=])|by intros (_ & ? & _)]. }
  destruct (list_find _ _) as [[i ex]|] eqn:Hfind; cbn.
  - apply list_find_Some in Hfind as (Hi & Hex & _).
    apply list_elem_of_lookup_2 in Hi.
    split.
    + split; [|by eexists _, _]. intros _. split_and!; [done..|].
      by exists ex.
    + intros f entry [= <-] [= <-]. by exists ex.
  - apply list_find_None in Hfind. rewrite Forall_forall in Hfind.
    split; [|by intros f entry [= <-] [=]].
    split; [by intros (f & entry & [= <-] & [=])|].
    intros (_ & _ & ex & Hex & Hprev). by destruct (Hfind ex).
Qed.

End Views.

(** ** Beyond the claims: the events, one by one and in sequence *)

Section Events.

Context `{RecordStore}.
Implicit Types m : Machine.

Local Abbreviation payload_at m u :=
  {| Payload.user_id := uid u;
     Payload.exercise_name := Draft.exercise_name (formData (app m));
     Payload.category := activeTab (app m);
     Payload.reps := parseInt (Draft.reps (formData (app m)));
     Payload.sets := parseInt (Draft.sets (formData (app m)));
     Payload.total_weight :=
       parseFloat (Draft.total_weight (formData (app m)));
     Payload.created_at := clock m |}.

Local Abbreviation newest_first u :=
  {| where_user_id := uid u; orderBy_created_at := desc |}.

Ltac run_handler :=
  unfold dispatch, handleSubmit, onAuthStateChanged, effect_on_user,
    loadExercises, try_catch, await, throw, nonnull_id, toast,
    console_error, preventDefault, Date_now_toISOString,
    blink_db_exercises_list, blink_db_exercises_create, blink_auth_login,
    setUser, setLoading, setExercises, setActiveTab, setShowAddForm,
    setFormData, set_app, set_clock, emit, read, render, mbind, mret,
    Task_bind, Task_ret;
  cbn.

(** What the subscription callback and the effect after it do. *)
Lemma onAuthStateChanged_run state_user state_isLoading m :
  onAuthStateChanged state_user state_isLoading m =
    match state_user with
    | None =>
        (Fulfilled (),
         {| app :=
              {| user := None; loading := state_isLoading;
                 exercises := exercises (app m);
                 activeTab := activeTab (app m);
                 showAddForm := showAddForm (app m);
                 formData := formData (app m) |};
            db := db m; clock := clock m; journal := journal m |})
    | Some u =>
        let '(d, listed) := db_list (newest_first u) (db m) in
        (Fulfilled (),
         {| app :=
              {| user := Some u; loading := state_isLoading;
                 exercises := loaded_after listed (exercises (app m));
                 activeTab := activeTab (app m);
                 showAddForm := showAddForm (app m);
                 formData := formData (app m) |};
            db := d; clock := clock m;
            journal :=
              journal m ++ ListCall (newest_first u) listed
                :: load_report listed |})
    end.
Proof.
  run_handler. destruct state_user as [u|]; cbn; [|done].
  destruct (db_list _ _) as [d [data|err]]; cbn; [done|].
  by rewrite <- !app_assoc.
Qed.

(** A local event sets cells of the form and the tabs, nothing else. *)
Lemma dispatch_local_run e m :
  local_event e = true →
  dispatch e m =
    (Fulfilled (),
     {| app :=
          {| user := user (app m); loading := loading (app m);
             exercises := exercises (app m);
             activeTab := default (activeTab (app m)) (chosen_tab e);
             showAddForm :=
               match e with
               | ClickLogExercise => negb (showAddForm (app m))
               | ClickCancel => false
               | _ => showAddForm (app m)
               end;
             formData :=
               {| Draft.exercise_name :=
                    default (Draft.exercise_name (formData (app m)))
                            (typed_name e);
                  Draft.reps :=
                    default (Draft.reps (formData (app m))) (typed_reps e);
                  Draft.sets :=
                    default (Draft.sets (formData (app m))) (typed_sets e);
                  Draft.total_weight :=
                    default (Draft.total_weight (formData (app m)))
                            (typed_total_weight e) |} |};
        db := db m; clock := clock m; journal := journal m |}).
Proof.
  destruct m as [[u l exs tab open [n r s w]] d c j].
  by destruct e.
Qed.

Lemma set_clock_run now m :
  set_clock now m =
    (Fulfilled (),
     {| app := app m; db := db m; clock := now; journal := journal m |}).
Proof. reflexivity. Qed.

(** Splits the goal by what the handler of [e] runs into on [m]: a local
    event, the sign-in button, an auth notification without and with a
    user (the fetch fulfilled or rejected), and a submission (incomplete
    draft; fetch fulfilled or rejected after a fulfilled [create];
    rejected [create]; nobody signed in). *)
Ltac event_cases e m :=
  let Hlocal := fresh "Hlocal" in
  destruct (local_event e) eqn:Hlocal;
  [ rewrite (dispatch_local_run e m Hlocal)
  | destruct e as [[u|] l| | | | | | | | |]; try discriminate Hlocal;
    clear Hlocal; cbn [dispatch];
    [ rewrite onAuthStateChanged_run;
      let Hlist := fresh "Hlist" in
      destruct (db_list _ _) as [d [data|err]] eqn:Hlist
    | rewrite onAuthStateChanged_run
    | run_handler
    | let Hv := fresh "Hv" in
      let Hu := fresh "Hu" in
      let Hcreate := fresh "Hcreate" in
      let Hlist := fresh "Hlist" in
      destruct (decide (validation_fails (formData (app m)) = true))
        as [Hv|Hv]; rewrite validation_fails_iff in Hv;
      [ rewrite (handleSubmit_invalid m Hv)
      | destruct (user (app m)) as [u|] eqn:Hu;
        [ rewrite (handleSubmit_valid m u Hv Hu);
          destruct (db_create _ _) as [d1 [[]|err]] eqn:Hcreate;
          [ destruct (db_list _ d1) as [d2 [data|err]] eqn:Hlist | ]
        | rewrite (handleSubmit_signed_out m Hv Hu) ] ] ] ];
  cbn [load_report loaded_after fst snd].

Lemma dispatch_fulfilled e m : (dispatch e m).1 = Fulfilled ().
Proof. event_cases e m; reflexivity. Qed.

Lemma dispatch_keeps_clock e m : clock (dispatch e m).2 = clock m.
Proof. event_cases e m; reflexivity. Qed.

(** Handling a sequence is handling its first event at its time, then the
    rest on the machine this leaves. *)
Lemma dispatch_all_cons now e rest m :
  dispatch_all ((now, e) :: rest) m =
    dispatch_all rest (after (dispatch e) (after (set_clock now) m)).
Proof.
  cbn [dispatch_all]. unfold after, mbind, Task_bind at 1 2.
  rewrite set_clock_run. cbn [fst snd].
  pose proof (dispatch_fulfilled e
    {| app := app m; db := db m; clock := now; journal := journal m |})
    as Hdone.
  destruct (dispatch e _) as [result m']. cbn in Hdone. by subst.
Qed.

(** X6. No event, and no sequence of events, ends in an error thrown out
    of its handler: a rejected store call and the missing user of a
    submission are caught. *)
Theorem dispatch_all_never_throws events m :
  outcome (dispatch_all events) m = Fulfilled ().
Proof.
  unfold outcome. revert m.
  induction events as [|[now e] rest IH]; intros m; [done|].
  rewrite dispatch_all_cons. apply IH.
Qed.





(** X2. A notification that nobody is signed in makes no call and does
    not clear the loaded list; the render after it shows the loading or
    the sign-in screen, so the list that is still loaded is not shown. *)
Theorem sign_out_keeps_the_list_unseen formatDate isLoading m :
  exercises (app (after (dispatch (AuthStateChanged None isLoading)) m))
    = exercises (app m) ∧
  journal (after (dispatch (AuthStateChanged None isLoading)) m)
    = journal m ∧
  db (after (dispatch (AuthStateChanged None isLoading)) m) = db m ∧
  outcome (App formatDate)
          (after (dispatch (AuthStateChanged None isLoading)) m)
    = Fulfilled (if isLoading then LoadingScreen else SignInScreen).
Proof.
  unfold after, outcome. cbn [dispatch].
  rewrite onAuthStateChanged_run. cbn [snd].
  split_and!; [done..|].
  unfold App, mbind, Task_bind, render, read. cbn.
  by destruct isLoading.
Qed.

(** X4. Which event can change which cell. The tab changes only by a
    tab click; [user] and [loading] only by an auth notification; the
    draft only by typing or by a submission whose [create] was fulfilled,
    which empties it; the form opens or closes only by its two buttons or
    by a submission. So closing the form or changing the tab never
    touches the draft. *)
Theorem cells_change_only_by_their_events e m :
  ∃ new,
    journal (after (dispatch e) m) = journal m ++ new ∧
    (activeTab (app (after (dispatch e) m)) ≠ activeTab (app m) →
     ∃ value, e = TabsValueChange value) ∧
    (user (app (after (dispatch e) m)) ≠ user (app m) ∨
     loading (app (after (dispatch e) m)) ≠ loading (app m) →
     ∃ state_user state_isLoading,
       e = AuthStateChanged state_user state_isLoading) ∧
    (formData (app (after (dispatch e) m)) ≠ formData (app m) →
     (∃ value, e = ChangeExerciseName value ∨ e = ChangeSets value ∨
               e = ChangeReps value ∨ e = ChangeTotalWeight value) ∨
     (e = SubmitForm ∧
      formData (app (after (dispatch e) m)) = Draft.empty ∧
      ∃ p, CreateCall p (Fulfilled ()) ∈ new)) ∧
    (showAddForm (app (after (dispatch e) m)) ≠ showAddForm (app m) →
     e = ClickLogExercise ∨ e = ClickCancel ∨ e = SubmitForm).
Proof.
  unfold after. event_cases e m; cbn [snd app journal activeTab user
    loading formData showAddForm].
  - (* local *)
    exists []. rewrite app_nil_r. split; [done|].
    destruct m as [[u l exs tab open [n r s w]] d c j]. cbn.
    destruct e; try discriminate; cbn; split_and!; intros Hne;
      try (by destruct Hne); try (by destruct Hne as [?|?]); eauto 6.
  - eexists. split; [reflexivity|]. split_and!; try done; eauto.
  - eexists. split; [reflexivity|]. split_and!; try done; eauto.
  - exists []. rewrite app_nil_r. split_and!; try done; eauto.
  - eexists. split; [reflexivity|].
    split_and!; try done; intros []; done.
  - eexists. split; [reflexivity|].
    split_and!; try done; intros []; done.
  - eexists. split; [reflexivity|]. rewrite Hu.
    split_and!; try done; [intros []; done| |by auto].
    intros _. right. split_and!; [done..|].
    eexists. cbn. rewrite !elem_of_cons. eauto.
  - eexists. split; [reflexivity|]. rewrite Hu.
    split_and!; try done; [intros []; done| |by auto].
    intros _. right. split_and!; [done..|].
    eexists. cbn. rewrite !elem_of_cons. eauto.
  - eexists. split; [reflexivity|].
    split_and!; try done; intros []; done.
  - eexists. split; [reflexivity|].
    split_and!; try done; intros []; done.
Qed.

Lemma dispatch_all_cons_local now e rest m :
  local_event e = true →
  dispatch_all ((now, e) :: rest) m =
    dispatch_all rest
      {| app :=
           {| user := user (app m); loading := loading (app m);
              exercises := exercises (app m);
              activeTab := default (activeTab (app m)) (chosen_tab e);
              showAddForm :=
                match e with
                | ClickLogExercise => negb (showAddForm (app m))
                | ClickCancel => false
                | _ => showAddForm (app m)
                end;
              formData :=
                {| Draft.exercise_name :=
                     default (Draft.exercise_name (formData (app m)))
                             (typed_name e);
                   Draft.reps :=
                     default (Draft.reps (formData (app m))) (typed_reps e);
                   Draft.sets :=
                     default (Draft.sets (formData (app m))) (typed_sets e);
                   Draft.total_weight :=
                     default (Draft.total_weight (formData (app m)))
                             (typed_total_weight e) |} |};
         db := db m; clock := now; journal := journal m |}.
Proof.
  intros He. rewrite dispatch_all_cons. unfold after.
  rewrite set_clock_run. cbn [snd].
  by rewrite (dispatch_local_run e _ He).
Qed.

Lemma default_latest {A} (pick : UiEvent → option A) now e rest (a : A) :
  default (default a (pick e)) (latest pick rest)
    = default a (latest pick ((now, e) :: rest)).
Proof. cbn. by destruct (latest pick rest). Qed.

(** The machine a sequence of local events leaves. *)
Lemma dispatch_all_local_run events m :
  Forall (λ timed, local_event timed.2 = true) events →
  ∃ open now,
    after (dispatch_all events) m =
      {| app :=
           {| user := user (app m); loading := loading (app m);
              exercises := exercises (app m);
              activeTab :=
                default (activeTab (app m)) (latest chosen_tab events);
              showAddForm := open;
              formData :=
                {| Draft.exercise_name :=
                     default (Draft.exercise_name (formData (app m)))
                             (latest typed_name events);
                   Draft.reps :=
                     default (Draft.reps (formData (app m)))
                             (latest typed_reps events);
                   Draft.sets :=
                     default (Draft.sets (formData (app m)))
                             (latest typed_sets events);
                   Draft.total_weight :=
                     default (Draft.total_weight (formData (app m)))
                             (latest typed_total_weight events) |} |};
         db := db m; clock := now; journal := journal m |}.
Proof.
  intros Hlocal. revert m.
  induction Hlocal as [|[now e] rest He Hrest IH]; intros m.
  - exists (showAddForm (app m)), (clock m).
    by destruct m as [[u l exs tab open [n r s w]] d c j].
  - unfold after. rewrite (dispatch_all_cons_local now e rest m He).
    match goal with
    | |- context [dispatch_all rest ?m2] =>
        destruct (IH m2) as (open & now' & Hrun)
    end.
    unfold after in Hrun. rewrite Hrun. cbn.
    exists open, now'.
    by rewrite !(default_latest _ now e rest).
Qed.

(** X5. A sequence of local events (typing, tab clicks, opening and
    closing the form) makes no call, shows no notification and leaves the
    store, the loaded list, [user] and [loading] as they were. *)
Theorem local_events_stay_local events m :
  Forall (λ timed, local_event timed.2 = true) events →
  journal (after (dispatch_all events) m) = journal m ∧
  db (after (dispatch_all events) m) = db m ∧
  exercises (app (after (dispatch_all events) m)) = exercises (app m) ∧
  user (app (after (dispatch_all events) m)) = user (app m) ∧
  loading (app (after (dispatch_all events) m)) = loading (app m).
Proof.
  intros Hlocal.
  destruct (dispatch_all_local_run events m Hlocal) as (open & now & ->).
  by split_and!.
Qed.

(** X7. After a sequence of local events each field of the draft holds
    what was typed into it last, or what it held before when nothing was
    typed into it, and the active tab is the one clicked last: typing into
    one field never disturbs another, in whatever order. *)
Theorem last_typed_value_wins events m :
  Forall (λ timed, local_event timed.2 = true) events →
  formData (app (after (dispatch_all events) m)) =
    {| Draft.exercise_name :=
         default (Draft.exercise_name (formData (app m)))
                 (latest typed_name events);
       Draft.reps :=
         default (Draft.reps (formData (app m))) (latest typed_reps events);
       Draft.sets :=
         default (Draft.sets (formData (app m))) (latest typed_sets events);
       Draft.total_weight :=
         default (Draft.total_weight (formData (app m)))
                 (latest typed_total_weight events) |} ∧
  activeTab (app (after (dispatch_all events) m))
    = default (activeTab (app m)) (latest chosen_tab events).
Proof.
  intros Hlocal.
  destruct (dispatch_all_local_run events m Hlocal) as (open & now & ->).
  by split.
Qed.

(** X8. From typing to the store: when a signed-in user fills the four
    fields, picks a tab and submits, the one [create] call carries the
    name as typed, [parseInt] of the reps and sets, [parseFloat] of the
    weight, the tab picked last as category and the time of the
    submission. *)
Theorem typed_draft_reaches_the_store m u name sets_text reps_text
    weight_text tab t1 t2 t3 t4 t5 now :
  user (app m) = Some u →
  name ≠ "" → sets_text ≠ "" → reps_text ≠ "" → weight_text ≠ "" →
  ∃ new,
    journal
      (after
         (dispatch_all
            [(t1, ChangeExerciseName name); (t2, ChangeSets sets_text);
             (t3, ChangeReps reps_text);
             (t4, ChangeTotalWeight weight_text);
             (t5, TabsValueChange tab); (now, SubmitForm)])
         m)
      = journal m ++ new ∧
    create_calls new =
      [{| Payload.user_id := uid u;
          Payload.exercise_name := name;
          Payload.category := tab;
          Payload.reps := parseInt reps_text;
          Payload.sets := parseInt sets_text;
          Payload.total_weight := parseFloat weight_text;
          Payload.created_at := now |}].
Proof.
  intros Hu Hname Hsets Hreps Hweight.
  unfold after.
  repeat (rewrite dispatch_all_cons_local by done;
          cbn [app db clock journal user loading exercises activeTab
               showAddForm formData Draft.exercise_name Draft.reps
               Draft.sets Draft.total_weight default typed_name typed_sets
               typed_reps typed_total_weight chosen_tab from_option]).
  rewrite dispatch_all_cons. unfold after. rewrite set_clock_run.
  cbn [snd dispatch dispatch_all mret Task_ret app db clock journal].
  match goal with |- context [handleSubmit ?m1] => set (m1' := m1) end.
  assert (Hok : ¬ incomplete (formData (app m1'))).
  { subst m1'. cbn. intros [?|[?|[?|?]]]; done. }
  rewrite (handleSubmit_valid m1' u Hok Hu).
  subst m1'. cbn.
  destruct (db_create _ _) as [d1 [[]|err]].
  - destruct (db_list _ _) as [d2 [data|err]]; cbn;
      eexists; (split; [reflexivity|done]).
  - cbn. eexists. split; [reflexivity|done].
Qed.

(** X9. Once a submission has gone through, submitting again without
    typing creates nothing more: the draft was emptied, so the second
    submission stops at the validation notification. *)
Theorem second_submission_is_rejected m u t1 t2 d1 :
  user (app m) = Some u →
  ¬ incomplete (formData (app m)) →
  db_create
    {| Payload.user_id := uid u;
       Payload.exercise_name := Draft.exercise_name (formData (app m));
       Payload.category := activeTab (app m);
       Payload.reps := parseInt (Draft.reps (formData (app m)));
       Payload.sets := parseInt (Draft.sets (formData (app m)));
       Payload.total_weight :=
         parseFloat (Draft.total_weight (formData (app m)));
       Payload.created_at := t1 |}
    (db m) = (d1, Fulfilled ()) →
  ∃ new,
    journal (after (dispatch_all [(t1, SubmitForm); (t2, SubmitForm)]) m)
      = journal m ++ new ∧
    length (create_calls new) = 1%nat ∧
    last new = Some (ToastShown validation_toast).
Proof.
  intros Hu Hok Hcreate.
  unfold after. rewrite dispatch_all_cons.
  unfold after. rewrite set_clock_run.
  cbn [snd dispatch app db clock journal].
  set (m1 := {| app := app m; db := db m; clock := t1;
                journal := journal m |}).
  rewrite (handleSubmit_valid m1 u Hok Hu).
  subst m1. cbn [app db clock journal]. rewrite Hcreate.
  destruct (db_list _ d1) as [d2 listed]. cbn [snd].
  rewrite dispatch_all_cons. unfold after. rewrite set_clock_run.
  cbn [snd dispatch dispatch_all mret Task_ret app db clock journal].
  rewrite handleSubmit_invalid by (by left).
  cbn [snd journal].
  eexists. split; [by rewrite <- !app_assoc|].
  destruct listed; cbn; done.
Qed.

(** Takes apart the hypotheses that something is in a journal stretch
    that is written out, and proves such a goal. *)
Ltac journal_hyps :=
  repeat match goal with
  | H : ∃ _, _ |- _ => destruct H as [? H]
  | H : _ ∨ _ |- _ => destruct H as [H|H]
  | H : _ ∈ _ |- _ =>
      progress (cbn in H; rewrite ?elem_of_cons, ?elem_of_nil in H)
  | H : False |- _ => destruct H
  end;
  simplify_eq.

Ltac journal_goal :=
  cbn; try eexists; rewrite ?elem_of_cons; solve [eauto 12].

Ltac new_entries :=
  first [ exists []; rewrite app_nil_r; split; [done|]
        | eexists; split; [reflexivity|] ].


(** X16. Notifications follow the store calls. The success notification
    is shown exactly when a [create] call was fulfilled, also when the
    fetch after it is rejected; every rejected call is followed by a
    destructive notification; and no event but a submission or an auth
    notification shows any. *)
Theorem notifications_follow_the_calls e m :
  ∃ new,
    journal (after (dispatch e) m) = journal m ++ new ∧
    (ToastShown success_toast ∈ new
     ↔ ∃ p, CreateCall p (Fulfilled ()) ∈ new) ∧
    ((∃ q err, ListCall q (Rejected err) ∈ new) ∨
     (∃ p err, CreateCall p (Rejected err) ∈ new) →
     ∃ t, ToastShown t ∈ new ∧ variant t = Some destructive) ∧
    (∀ t, ToastShown t ∈ new →
       e = SubmitForm ∨
       ∃ state_user state_isLoading,
         e = AuthStateChanged state_user state_isLoading).
Proof.
  unfold after. event_cases e m; cbn [snd journal].
  all: new_entries.
  all: split_and!;
    [ split; intros Hin; journal_hyps; journal_goal
    | intros Hin; journal_hyps;
      first [ exists load_failed_toast; split; [journal_goal|done]
            | exists create_failed_toast; split; [journal_goal|done] ]
    | intros t Hin; journal_hyps; eauto ].
Qed.

End Events.

(** ** Beyond the claims: a change of user *)

Section Sessions.

Context `{RecordStore}.
Implicit Types m : Machine.

(** X17. When a user signs in and the fetch for that user is rejected,
    the list loaded before stays loaded, whoever it was loaded for, and
    the render that follows shows it under the tabs. *)
Theorem rejected_fetch_shows_the_former_list formatDate m u d err :
  db_list {| where_user_id := uid u; orderBy_created_at := desc |} (db m)
    = (d, Rejected err) →
  exercises (app (after (dispatch (AuthStateChanged (Some u) false)) m))
    = exercises (app m) ∧
  ∃ up low,
    outcome (App formatDate)
            (after (dispatch (AuthStateChanged (Some u) false)) m)
      = Fulfilled (TrackerScreen (activeTab (app m)) up low) ∧
    cards (history up)
      = history_card formatDate
          <$> filter (λ ex, category ex = upper) (exercises (app m)) ∧
    cards (history low)
      = history_card formatDate
          <$> filter (λ ex, category ex = lower) (exercises (app m)).
Proof.
  intros Hlist. unfold after, outcome. cbn [dispatch].
  rewrite onAuthStateChanged_run, Hlist. cbn [snd loaded_after].
  split; [done|].
  eexists _, _. split.
  - by rewrite (App_signed_in formatDate _ u) by done.
  - by rewrite !cards_WorkoutContent.
Qed.

End Sessions.

(** ** The further properties at concrete inputs *)

Section MoreRuns.

Import Sample.


Lemma local_events_stay_local_witness :
  Forall (λ timed : string * UiEvent, local_event timed.2 = true)
    [("09:31", ChangeReps "5"); ("09:32", TabsValueChange lower);
     ("09:33", ClickCancel); ("09:34", ClickLogExercise)] ∧
  journal
    (after
       (dispatch_all
          [("09:31", ChangeReps "5"); ("09:32", TabsValueChange lower);
           ("09:33", ClickCancel); ("09:34", ClickLogExercise)])
       m_blank) = [] ∧
  db (after
        (dispatch_all
           [("09:31", ChangeReps "5"); ("09:32", TabsValueChange lower);
            ("09:33", ClickCancel); ("09:34", ClickLogExercise)])
        m_blank) = {| rows := stored; answers := 9 |}.
Proof.
  assert (Hlocal :
    Forall (λ timed : string * UiEvent, local_event timed.2 = true)
      [("09:31", ChangeReps "5"); ("09:32", TabsValueChange lower);
       ("09:33", ClickCancel); ("09:34", ClickLogExercise)])
    by (repeat constructor).
  split; [exact Hlocal|].
  destruct (local_events_stay_local _ m_blank Hlocal) as (Hj & Hdb & _).
  split; [exact Hj|exact Hdb].
Defined.

(** Reps are typed twice and the name in between; closing the form in the
    end clears nothing. *)
Lemma last_typed_value_wins_witness :
  Forall (λ timed : string * UiEvent, local_event timed.2 = true)
    [("09:31", ChangeReps "5"); ("09:32", ChangeExerciseName "Rows");
     ("09:33", ChangeReps "8"); ("09:34", TabsValueChange lower);
     ("09:35", ClickCancel)] ∧
  formData
    (app (after
            (dispatch_all
               [("09:31", ChangeReps "5"); ("09:32", ChangeExerciseName "Rows");
                ("09:33", ChangeReps "8"); ("09:34", TabsValueChange lower);
                ("09:35", ClickCancel)])
            m_blank))
    = {| Draft.exercise_name := "Rows"; Draft.reps := "8";
         Draft.sets := ""; Draft.total_weight := "" |} ∧
  activeTab
    (app (after
            (dispatch_all
               [("09:31", ChangeReps "5"); ("09:32", ChangeExerciseName "Rows");
                ("09:33", ChangeReps "8"); ("09:34", TabsValueChange lower);
                ("09:35", ClickCancel)])
            m_blank))
    = lower.
Proof.
  assert (Hlocal :
    Forall (λ timed : string * UiEvent, local_event timed.2 = true)
      [("09:31", ChangeReps "5"); ("09:32", ChangeExerciseName "Rows");
       ("09:33", ChangeReps "8"); ("09:34", TabsValueChange lower);
       ("09:35", ClickCancel)])
    by (repeat constructor).
  split; [exact Hlocal|].
  exact (last_typed_value_wins _ m_blank Hlocal).
Defined.

Lemma typed_draft_reaches_the_store_witness :
  user (app m_blank) = Some ada ∧
  ∃ new,
    journal
      (after
         (dispatch_all
            [("09:31", ChangeExerciseName "Rows"); ("09:32", ChangeSets "4");
             ("09:33", ChangeReps "12");
             ("09:34", ChangeTotalWeight "82.5");
             ("09:35", TabsValueChange upper); ("09:36", SubmitForm)])
         m_blank)
      = journal m_blank ++ new ∧
    create_calls new =
      [{| Payload.user_id := "u1";
          Payload.exercise_name := "Rows";
          Payload.category := upper;
          Payload.reps := ParsedInt "12";
          Payload.sets := ParsedInt "4";
          Payload.total_weight := ParsedFloat "82.5";
          Payload.created_at := "09:36" |}].
Proof.
  split; [reflexivity|].
  apply (typed_draft_reaches_the_store m_blank ada "Rows" "4" "12" "82.5"
           upper "09:31" "09:32" "09:33" "09:34" "09:35" "09:36" eq_refl);
    discriminate.
Defined.

Lemma second_submission_is_rejected_witness :
  user (app m_complete) = Some ada ∧
  ¬ incomplete (formData (app m_complete)) ∧
  ∃ new,
    journal
      (after (dispatch_all [("09:36", SubmitForm); ("09:37", SubmitForm)])
             m_complete)
      = journal m_complete ++ new ∧
    length (create_calls new) = 1%nat ∧
    last new = Some (ToastShown validation_toast).
Proof.
  split; [reflexivity|]. split; [exact complete_is_complete|].
  exact (second_submission_is_rejected m_complete ada "09:36" "09:37" _
           eq_refl complete_is_complete eq_refl).
Defined.

Lemma histories_show_every_loaded_record_witness :
  ∃ up low,
    outcome (App (λ date, date)) m_typing
      = Fulfilled (TrackerScreen lower up low) ∧
    key <$> cards (history up) = ["1"; "3"] ∧
    key <$> cards (history low) = ["0"; "2"] ∧
    key <$> (cards (history up) ++ cards (history low))
      ≡ₚ id <$> exercises (app m_typing).
Proof.
  eexists _, _. split; [reflexivity|].
  split; [reflexivity|]. split; [reflexivity|].
  exact (proj1 (proj2 (proj2
    (histories_show_every_loaded_record (λ date, date) m_typing lower _ _
       eq_refl)))).
Defined.

(** The form is open on the lower tab with "squats" typed: the card shows
    the record named "Squats". *)
Lemma previous_entry_card_shown_witness :
  ∃ up low,
    outcome (App (λ date, date)) m_typing
      = Fulfilled (TrackerScreen lower up low) ∧
    content_of lower (TrackerScreen lower up low) = Some low ∧
    ((∃ f entry, form low = Some f ∧ previous_entry f = Some entry)
     ↔ showAddForm (app m_typing) = true ∧
       Draft.exercise_name (formData (app m_typing)) ≠ "" ∧
       ∃ ex, ex ∈ exercises (app m_typing) ∧
             is_previous (Draft.exercise_name (formData (app m_typing)))
                         (activeTab (app m_typing)) ex).
Proof.
  eexists _, _. split; [reflexivity|]. split; [reflexivity|].
  exact (proj1
    (previous_entry_card_shown (λ date, date) m_typing lower _ _ lower _
       eq_refl eq_refl)).
Defined.

(** The list was loaded for the first user; the store is out of reach
    when a second one signs in. *)
Lemma rejected_fetch_shows_the_former_list_witness :
  db_list {| where_user_id := "u2"; orderBy_created_at := desc |}
          (db m_offline)
    = (db m_offline, Rejected dropped) ∧
  exercises
    (app (after
            (dispatch
               (AuthStateChanged
                  (Some {| uid := "u2"; email := "bea@example.org" |}) false))
            m_offline))
    = [bench; squats; old_squats; unnamed].
Proof.
  split; [reflexivity|].
  exact (proj1
    (rejected_fetch_shows_the_former_list (λ date, date) m_offline
       {| uid := "u2"; email := "bea@example.org" |}
       (db m_offline) dropped eq_refl)).
Defined.

End MoreRuns.
